(** * Clinicore console: the dashboard pipeline of [Frontend/dashboard.js]

    A shallow embedding of the ingestion, aggregation, metrics, role gate and
    refresh code of the dashboard script, and the properties its
    specification states about them.

    Conventions of the embedding.

    - A JavaScript number is a binary64 float ([float]); counters that the
      code only ever increments by one from zero are [nat].
    - A JavaScript object that the code uses as a map to counts is the
      list of its own properties in the order of their creation
      ([JsObj.t]).  For the day strings of [countsByDay] that is all of the
      object.  The objects keyed by disease labels, which can be any string,
      are [PlainObject.t]: reading a key goes to [Object.prototype] where
      the object has no own property, and [Object.keys] lists the array
      indices first.
    - A Firestore document is a record whose fields are optional wherever
      the code guards the access ([r.prediction && ...]); [None] stands for
      a missing ([undefined]) or [null] field.
    - [async] functions are computations in a state and exception monad
      [M]; [await e] is sequencing, a rejected promise is [Throw].  What is
      outside the page (Firestore, the prediction server, the clock) is read
      from an environment [Env]. *)

From Stdlib Require Import ZArith NArith List String Ascii Floats Permutation Sorted Lia.
From stdpp Require Import base list strings gmap.

Set Warnings "-inexact-float".

Local Open Scope string_scope.
Local Open Scope Z_scope.
Local Open Scope list_scope.

(** ** JavaScript objects used as counting maps: the own properties *)

Module JsObj.

Definition t (V : Type) : Type := list (string * V).

Definition empty {V} : t V := [].

(** [o[k]] on an own property. *)
Fixpoint get {V} (o : t V) (k : string) : option V :=
  match o with
  | [] => None
  | (k', v) :: o' => if String.eqb k' k then Some v else get o' k
  end.

(** [o[k] = v]: an existing property keeps its place, a new one is
    appended. *)
Fixpoint set {V} (o : t V) (k : string) (v : V) : t V :=
  match o with
  | [] => [(k, v)]
  | (k', v') :: o' =>
      if String.eqb k' k then (k', v) :: o' else (k', v') :: set o' k v
  end.

Definition keys {V} (o : t V) : list string := map fst o.
Definition values {V} (o : t V) : list V := map snd o.

(** [o[k] = (o[k] || 0) + 1], for a key [k] that is neither an array index
    nor the name of a property of [Object.prototype]: [o[k]] is then the own
    property or nothing, and a new key is listed last. *)
Definition bump (o : t nat) (k : string) : t nat :=
  set o k (S (default 0%nat (get o k))).

(** [xs.forEach(x => { o[key(x)] = (o[key(x)] || 0) + 1 })] from [{}]. *)
Definition tally {A} (key : A -> string) (xs : list A) : t nat :=
  fold_left (fun o x => bump o (key x)) xs empty.

End JsObj.

(** ** [Array.prototype.sort]

    The sort is stable (ECMAScript 2019), so under a consistent comparator
    the result is the one of a stable insertion sort: the element [x] is
    placed after every element that the comparator orders before it or ties
    with it.  The comparators of this program are consistent on numbers. *)

Section Sort.
Context {A : Type} (cmp : A -> A -> Z).

Fixpoint sort_insert (x : A) (l : list A) : list A :=
  match l with
  | [] => [x]
  | y :: l' => if 0 <? cmp x y then y :: sort_insert x l' else x :: y :: l'
  end.

Definition js_sort (l : list A) : list A := fold_right sort_insert [] l.
End Sort.

(** The default comparator of [sort()] on strings: code unit order. *)
Definition string_cmp (a b : string) : Z :=
  match String.compare a b with
  | Lt => -1
  | Eq => 0
  | Gt => 1
  end.

(** ** The object literal [{}] keyed by any string *)

(** What [o[k] = (o[k] || 0) + 1] stores under [k]: a number, or a text once
    [o[k]] was read from [Object.prototype]: the source text of the
    inherited function [name] followed by [ones] digits [1]. *)
Inductive Tally :=
| Counted (n : nat)
| Spoiled (name : string) (ones : nat).

Module PlainObject.

(** The own properties, in the order of their creation. *)
Definition t : Type := JsObj.t Tally.

(** The property names of [Object.prototype]: its methods and the accessor
    [__proto__]. *)
Definition inherited (k : string) : bool :=
  existsb (String.eqb k)
    ["constructor"; "hasOwnProperty"; "isPrototypeOf"; "propertyIsEnumerable";
     "toLocaleString"; "toString"; "valueOf"; "__proto__";
     "__defineGetter__"; "__defineSetter__"; "__lookupGetter__"; "__lookupSetter__"].

Fixpoint decimal (s : string) (acc : N) : option N :=
  match s with
  | EmptyString => Some acc
  | String a r =>
      let c := N_of_ascii a in
      if ((48 <=? c) && (c <=? 57))%N then decimal r (10 * acc + (c - 48))%N else None
  end.

(** The array index that a key denotes: a canonical decimal numeral (no
    leading zero, no sign) below [2^32 - 1]. *)
Definition index_of (k : string) : option N :=
  match k with
  | EmptyString => None
  | String a r =>
      if Ascii.eqb a "0" && negb (String.eqb r "") then None
      else n ← decimal k 0%N; if (n <? 4294967295)%N then Some n else None
  end.

Definition is_index (k : string) : bool :=
  match index_of k with Some _ => true | None => false end.

(** [o[k] = (o[k] || 0) + 1].  An own property is a positive number or a
    non-empty text, both truthy, and [+ 1] increments the one and appends
    [1] to the other.  Without an own property [o[k]] is what
    [Object.prototype] has under [k]: nothing, and the property is created
    with 1; or a function, which [+ 1] turns into its source text followed by
    [1]; or, for [__proto__], the prototype itself, and the assignment of the
    resulting text to [__proto__] is ignored. *)
Definition bump (o : t) (k : string) : t :=
  match JsObj.get o k with
  | Some (Counted n) => JsObj.set o k (Counted (S n))
  | Some (Spoiled f ones) => JsObj.set o k (Spoiled f (S ones))
  | None =>
      if String.eqb k "__proto__" then o
      else if inherited k then JsObj.set o k (Spoiled k 1)
      else JsObj.set o k (Counted 1)
  end.

(** [xs.forEach(x => { o[key(x)] = (o[key(x)] || 0) + 1 })] from [{}]. *)
Definition tally {A} (key : A -> string) (xs : list A) : t :=
  fold_left (fun o x => bump o (key x)) xs JsObj.empty.

(** The order in which an object lists its own keys: the array indices in
    ascending numeric order, then the other keys in the order of their
    creation. *)
Definition key_order (ks : list string) : list string :=
  js_sort (fun a b => Z.of_N (default 0%N (index_of a)) - Z.of_N (default 0%N (index_of b)))
    (filter (fun k => is_index k = true) ks)
  ++ filter (fun k => is_index k = false) ks.

(** [Object.keys(o)] *)
Definition keys (o : t) : list string := key_order (JsObj.keys o).

(** [Object.values(o)] *)
Definition values (o : t) : list Tally := omap (JsObj.get o) (keys o).

End PlainObject.

(** ** Dates: [toISOString().slice(0,10)] *)

Definition digit (n : Z) : string :=
  String (ascii_of_nat (48 + Z.to_nat (n mod 10))) EmptyString.

Fixpoint digits (width : nat) (n : Z) : string :=
  match width with
  | O => ""
  | S w => (digits w (n / 10) ++ digit n)%string
  end.

(** Civil date of a day number counted from 1970-01-01 (proleptic
    Gregorian calendar, as [Date] uses). *)
Definition civil_of_days (day : Z) : Z * Z * Z :=
  let z := day + 719468 in
  let era := z / 146097 in
  let doe := z - era * 146097 in
  let yoe := (doe - doe / 1460 + doe / 36524 - doe / 146096) / 365 in
  let doy := doe - (365 * yoe + yoe / 4 - yoe / 100) in
  let mp := (5 * doy + 2) / 153 in
  let d := doy - (153 * mp + 2) / 5 + 1 in
  let m := if mp <? 10 then mp + 3 else mp - 9 in
  let y := yoe + era * 400 + (if m <=? 2 then 1 else 0) in
  (y, m, d).

(** The first ten characters of [toISOString()]: ["YYYY-MM-DD"] for the
    years 0 to 9999, and the start of the expanded form ["+YYYYYY-MM"]
    otherwise. *)
Definition iso_day (day : Z) : string :=
  let '(y, m, d) := civil_of_days day in
  let year :=
    if (0 <=? y) && (y <=? 9999) then digits 4 y
    else String.append (if y <? 0 then "-" else "+") (digits 6 (Z.abs y)) in
  substring 0 10 (year ++ "-" ++ digits 2 m ++ "-" ++ digits 2 d)%string.

(** A JavaScript [Date], by its time value in milliseconds. *)
Definition Date_day (ms : Z) : string := iso_day (ms / 86400000).

(** A Firestore [Timestamp], by the time value in milliseconds of the
    [Date] that its [toDate()] method returns. *)
Record Timestamp := { toDate : Z }.

(** ** Data model: what the page reads and writes *)

(** The value of a numeric [<input>]: the empty string, or a text whose
    reading by [Number] is [x]. *)
Inductive InputValue :=
| Blank
| Num (x : float).

(** [Number(v || d)] *)
Definition Number_or (v : InputValue) (d : float) : float :=
  match v with
  | Blank => d
  | Num x => x
  end.

(** The elements of [predictForm], by their ids. *)
Record PredictForm := {
  el_pname : string;
  el_age : InputValue;
  el_gender : string;
  el_fever : bool;
  el_cough : bool;
  el_fatigue : bool;
  el_dbreath : bool;
  el_temp : InputValue;
  el_hr : InputValue;
  el_rr : InputValue;
  el_spo2 : InputValue;
  el_bp_cat : string;
  el_chol : string
}.

(** The feature payload sent to the prediction endpoints and stored as
    [features]. *)
Record Payload := {
  PatientName : string;
  Age : float;
  Gender : string;
  Fever : string;
  Cough : string;
  Fatigue : string;
  DifficultyBreathing : string;
  temp : float;
  hr : float;
  rr : float;
  spo2 : float;
  BloodPressure : string;
  Cholesterol : string
}.

(** The payload of the symptom checker; its keys ["Difficulty Breathing"],
    ["Blood Pressure"] and ["Cholesterol Level"] are spelled with a space. *)
Record SymptomPayload := {
  s_Fever : string;
  s_Cough : string;
  s_Fatigue : string;
  s_DifficultyBreathing : string;
  s_Age : float;
  s_Gender : string;
  s_BloodPressure : string;
  s_CholesterolLevel : string
}.

(** The body of a request to [/predict-disease] or [/predict-outcome]. *)
Inductive PredictBody :=
| FormBody (p : Payload)
| SymptomBody (p : SymptomPayload).

(** Responses of the prediction service, by the fields the page reads. *)
Record Top3Entry := { disease : option string; confidence : option float }.

Record DiseaseRes := { top3 : option (list Top3Entry); error : option string }.

(** [probability] is [Some p] exactly when
    [typeof outcomeRes.probability === 'number']. *)
Record OutcomeRes := { risk : option string; probability : option float }.

Record Prediction := {
  diseaseRes : option DiseaseRes;
  outcomeRes : option OutcomeRes;
  disease_top : option string
}.

(** A document of the [diagnosis] collection. *)
Record DiagnosisDoc := {
  patient_name : option string;
  age : option float;
  features : option Payload;
  prediction : option Prediction;
  createdAt : option Timestamp;
  createdBy : option string
}.

Record ChatDoc := { uid : string; sender : string; message : string; timestamp : Timestamp }.

(** The signed-in user of [firebase.auth()]. *)
Record User := { user_uid : string; user_displayName : option string; user_email : string }.

(** ** Truthiness of strings *)

(** [if (s)] for a possibly missing string: the empty string is falsy. *)
Definition truthy (s : option string) : bool :=
  match s with
  | Some s' => negb (String.eqb s' "")
  | None => false
  end.

(** [s || d] for a possibly missing string. *)
Definition or_str (s : option string) (d : string) : string :=
  match s with
  | Some s' => if String.eqb s' "" then d else s'
  | None => d
  end.

(** ** IngestionGateway: the payload of the [predictForm] submit handler *)

Definition yes_no (checked : bool) : string := if checked then "Yes" else "No".

Definition payload_of (f : PredictForm) : Payload := {|
  PatientName := or_str (Some (el_pname f)) "";
  Age := Number_or (el_age f) 0;
  Gender := el_gender f;
  Fever := yes_no (el_fever f);
  Cough := yes_no (el_cough f);
  Fatigue := yes_no (el_fatigue f);
  DifficultyBreathing := yes_no (el_dbreath f);
  temp := Number_or (el_temp f) 0;
  hr := Number_or (el_hr f) 0;
  rr := Number_or (el_rr f) 0;
  spo2 := Number_or (el_spo2 f) 100;
  BloodPressure := el_bp_cat f;
  Cholesterol := el_chol f
|}.

(** [x || d] for a number: 0 and NaN are falsy. *)
Definition or_num (x d : float) : float :=
  if PrimFloat.is_zero x || PrimFloat.is_nan x then d else x.

Definition includes (selected : list string) (v : string) : bool :=
  existsb (String.eqb v) selected.

(** The payload of the symptom checker, from the values of the checked
    [.symptom] boxes and the elements [age], [gender], [bp_cat] and [chol]
    of the page. *)
Definition symptom_payload (selected : list string) (f : PredictForm) : SymptomPayload := {|
  s_Fever := yes_no (includes selected "Fever");
  s_Cough := yes_no (includes selected "Cough");
  s_Fatigue := yes_no (includes selected "Fatigue");
  s_DifficultyBreathing := yes_no (includes selected "Difficulty Breathing");
  s_Age := or_num (Number_or (el_age f) 0) 30;
  s_Gender := el_gender f;
  s_BloodPressure := el_bp_cat f;
  s_CholesterolLevel := el_chol f
|}.

(** ** AggregationEngine: the pure parts of [refreshStats] and
    [loadAnalyticsCharts] *)

(** [(r.prediction && r.prediction.disease_top) || 'Unknown'] *)
Definition lab (r : DiagnosisDoc) : string :=
  or_str (p ← prediction r; disease_top p) "Unknown".

(** The [dist] object of [refreshStats]. *)
Definition dist (docs : list DiagnosisDoc) : PlainObject.t := PlainObject.tally lab docs.

(** [r.prediction && r.prediction.diseaseRes && r.prediction.diseaseRes.top3
     && r.prediction.diseaseRes.top3[0] && r.prediction.diseaseRes.top3[0].disease] *)
Definition top3_disease (r : DiagnosisDoc) : option string :=
  p ← prediction r; d ← diseaseRes p; l ← top3 d; e ← head l; disease e.

(** The [top] of [loadAnalyticsCharts]: the first truthy one of the top-3
    disease, [disease_top] and ['Unknown']. *)
Definition top (r : DiagnosisDoc) : string :=
  or_str (top3_disease r) (or_str (p ← prediction r; disease_top p) "Unknown").

Definition dxCount (docs : list DiagnosisDoc) : PlainObject.t := PlainObject.tally top docs.

(** [o[b] - o[a]] as [sort] takes it: the difference of two numbers, and 0
    where one of the two is not a number, the difference being [NaN]. *)
Definition count_diff (o : PlainObject.t) (a b : string) : Z :=
  match JsObj.get o b, JsObj.get o a with
  | Some (Counted m), Some (Counted n) => Z.of_nat m - Z.of_nat n
  | _, _ => 0
  end.

(** [Object.keys(dxCount).sort((a,b) => dxCount[b]-dxCount[a]).slice(0,8)].
    Where [dxCount] holds a text the comparator is not consistent and the
    standard leaves the order to the implementation; the model then gives
    the order of the insertion sort. *)
Definition dxLabels (docs : list DiagnosisDoc) : list string :=
  let o := dxCount docs in
  take 8 (js_sort (count_diff o) (PlainObject.keys o)).

(** [dxLabels.map(l => dxCount[l])]: the labels are own keys. *)
Definition dxValues (docs : list DiagnosisDoc) : list Tally :=
  let o := dxCount docs in
  omap (JsObj.get o) (dxLabels docs).

(** The day of a record: its [createdAt] as a date, or the current date
    [new Date()] when [createdAt] is missing. *)
Definition day_of (now : Z) (r : DiagnosisDoc) : string :=
  match createdAt r with
  | Some ts => Date_day (toDate ts)
  | None => Date_day now
  end.

(** The [countsByDay] object.  Its keys are day strings, which are neither
    array indices nor names of properties of [Object.prototype]. *)
Definition countsByDay (now : Z) (docs : list DiagnosisDoc) : JsObj.t nat :=
  JsObj.tally (day_of now) docs.

(** [Object.keys(countsByDay).sort()] *)
Definition days (now : Z) (docs : list DiagnosisDoc) : list string :=
  js_sort string_cmp (JsObj.keys (countsByDay now docs)).

Definition counts (now : Z) (docs : list DiagnosisDoc) : list nat :=
  map (fun d => default 0%nat (JsObj.get (countsByDay now docs) d)) (days now docs).

(** The probabilities that [avgRisk] averages. *)
Definition risk_probs (docs : list DiagnosisDoc) : list float :=
  omap (fun r => p ← prediction r; o ← outcomeRes p; probability o) docs.

Definition float_of_nat (n : nat) : float := PrimFloat.of_uint63 (Uint63.of_Z (Z.of_nat n)).

Definition avgRisk (docs : list DiagnosisDoc) : option float :=
  let ps := risk_probs docs in
  match ps with
  | [] => None
  | _ => Some (fold_left PrimFloat.add ps 0%float / float_of_nat (length ps))%float
  end.

(** ** MetricsComputer: the labeled pairs of
    [generateModelMetricsFromRecords] *)

Record Labeled := { y_true : list nat; y_prob : list float; y_pred : list nat }.

(** The body of the [for (const r of docs)] loop, as a filter: the
    probability of a record that has [features], a [prediction] and an
    [outcomeRes] with a numeric [probability], together with its [risk]. *)
Definition labeled_pair (r : DiagnosisDoc) : option (option string * float) :=
  match features r, prediction r with
  | Some _, Some p => o ← outcomeRes p; prob ← probability o; Some (risk o, prob)
  | _, _ => None
  end.

(** [risk === 'High Risk' ? 1 : 0] *)
Definition label_of (risk : option string) : nat :=
  match risk with
  | Some s => if String.eqb s "High Risk" then 1%nat else 0%nat
  | None => 0%nat
  end.

(** [prob >= 0.5 ? 1 : 0] *)
Definition pred_of (prob : float) : nat :=
  if PrimFloat.leb 0.5%float prob then 1%nat else 0%nat.

Definition labeled (docs : list DiagnosisDoc) : Labeled :=
  let pairs := omap labeled_pair docs in
  {| y_true := map (fun x => label_of (fst x)) pairs;
     y_prob := map snd pairs;
     y_pred := map (fun x => pred_of (snd x)) pairs |}.

(** ** The page: environment, state and effects *)

Inductive Collection := Cdiagnosis | Cusers | Cchat_history.

Inductive Fetch (A : Type) :=
| Resolved (a : A)
| Rejected.
Arguments Resolved {A} a.
Arguments Rejected {A}.

Record FeatureImportance := { feature : string; importance : float }.

Record Roc := { fpr : list float; tpr : list float; auc : option float }.

(** A document of the [users] collection. *)
Record UserDoc := { email : string; displayName : string; role : option string }.

(** What the page does not control.  A request to a collection or to an
    endpoint either resolves or rejects; the answers of the server are
    functions of the request body. *)
Record Env := {
  firestore_up : Collection -> bool;
  users : gmap string UserDoc;
  serverTimestamp : Timestamp;
  now : Z;
  predict_disease : PredictBody -> Fetch DiseaseRes;
  predict_outcome : PredictBody -> Fetch OutcomeRes;
  log_metrics : Fetch unit;
  feature_importance : Fetch (list FeatureImportance);
  roc_data : list nat -> list float -> Fetch Roc;
  confusion_matrix : list nat -> list nat -> Fetch (list (list nat));
  chat : string -> Fetch string
}.

(** What an element of the document shows after the modelled code wrote
    it.  A canvas shows the data of the chart instance that the page
    currently holds for it. *)
Inductive Content :=
| Text (s : string)
| Count (n : nat)
| Percent (p : option float)
| Display (shown : bool)
| Records (l : list (string * option (option string)))
| Chart (labels : list string) (data : list nat)
| BarChart (labels : list string) (data : list Tally)
| ImportanceChart (labels : list string) (data : list float)
| RocChart (r : Roc)
| Table (cm : list (list (option nat)))
| Suggestions (tops : list Top3Entry)
| ChatLines (l : list (string * string)).

(** Requests and console output, in the order they happen (newest first
    in [trace]). *)
Inductive Effect :=
| Query (c : Collection) (limit : nat)
| DocGet (c : Collection) (id : string)
| Add (c : Collection)
| POST (url : string)
| GET (url : string)
| Alert
| Speak (text : string)
| ConsoleWarn (msg : string)
| ConsoleError (msg : string).

(** Collections hold their documents newest first, the order of
    [orderBy('createdAt','desc')] under server timestamps that grow.  The
    [users] collection, which the page only reads, is in [Env]. *)
Record State := {
  db_diagnosis : list DiagnosisDoc;
  db_chat_history : list ChatDoc;
  currentUser : option User;
  dom : gmap string Content;
  trace : list Effect
}.

Definition with_dom (f : gmap string Content -> gmap string Content) (s : State) : State :=
  {| db_diagnosis := db_diagnosis s;
     db_chat_history := db_chat_history s; currentUser := currentUser s;
     dom := f (dom s); trace := trace s |}.

Definition with_trace (f : list Effect -> list Effect) (s : State) : State :=
  {| db_diagnosis := db_diagnosis s;
     db_chat_history := db_chat_history s; currentUser := currentUser s;
     dom := dom s; trace := f (trace s) |}.

Definition with_diagnosis (f : list DiagnosisDoc -> list DiagnosisDoc) (s : State) : State :=
  {| db_diagnosis := f (db_diagnosis s);
     db_chat_history := db_chat_history s; currentUser := currentUser s;
     dom := dom s; trace := trace s |}.

Definition with_chat_history (f : list ChatDoc -> list ChatDoc) (s : State) : State :=
  {| db_diagnosis := db_diagnosis s;
     db_chat_history := f (db_chat_history s); currentUser := currentUser s;
     dom := dom s; trace := trace s |}.

Definition with_currentUser (u : option User) (s : State) : State :=
  {| db_diagnosis := db_diagnosis s;
     db_chat_history := db_chat_history s; currentUser := u;
     dom := dom s; trace := trace s |}.

(** ** The monad of [async] functions *)

Inductive Exn :=
| FetchFailed (url : string)
| FirestoreFailed (c : Collection)
| TypeError
| ReferenceError (name : string).

Inductive Outcome (A : Type) :=
| Return (a : A)
| Throw (e : Exn).
Arguments Return {A} a.
Arguments Throw {A} e.

Definition M (A : Type) : Type := Env -> State -> Outcome A * State.

Definition ret {A} (a : A) : M A := fun _ s => (Return a, s).

Definition bind {A B} (m : M A) (k : A -> M B) : M B :=
  fun env s =>
    match m env s with
    | (Return a, s') => k a env s'
    | (Throw e, s') => (Throw e, s')
    end.

Definition throw {A} (e : Exn) : M A := fun _ s => (Throw e, s).

(** [try { m } catch (err) { h(err) }] *)
Definition try_catch {A} (m : M A) (h : Exn -> M A) : M A :=
  fun env s =>
    match m env s with
    | (Return a, s') => (Return a, s')
    | (Throw e, s') => h e env s'
    end.

(** A call to an [async] function whose promise is dropped: its effects
    happen, its result and its rejection are not observed by the caller. *)
Definition detached {A} (m : M A) : M unit :=
  fun env s => (Return tt, snd (m env s)).

Definition ask {A} (f : Env -> A) : M A := fun env s => (Return (f env), s).
Definition gets {A} (f : State -> A) : M A := fun _ s => (Return (f s), s).
Definition modify (f : State -> State) : M unit := fun _ s => (Return tt, f s).

Declare Scope js_scope.
Delimit Scope js_scope with js.
Notation "x <- m ;; k" := (bind m (fun x => k))
  (at level 100, m at next level, right associativity) : js_scope.
Notation "m ;; k" := (bind m (fun _ => k))
  (at level 100, right associativity) : js_scope.
Local Open Scope js_scope.

Definition emit (e : Effect) : M unit := modify (with_trace (cons e)).
(** [document.getElementById(id)] set to show [c]. *)
Definition set_el (id : string) (c : Content) : M unit := modify (with_dom <[id := c]>).

(** [await fetch(url, ...)] followed by [await res.json()], for an endpoint
    whose answer the environment gives as [r]. *)
Definition fetched {A} (e : Effect) (url : string) (r : Env -> Fetch A) : M A :=
  emit e ;;
  x <- ask r ;;
  match x with
  | Resolved a => ret a
  | Rejected => throw (FetchFailed url)
  end.

(** [postJSON(url, body)] *)
Definition postJSON {A} (url : string) (r : Env -> Fetch A) : M A :=
  fetched (POST url) url r.

(** [db.collection('diagnosis').orderBy('createdAt','desc').limit(n).get()]
    and [snap.docs.map(d => d.data())] *)
Definition query_diagnosis (n : nat) : M (list DiagnosisDoc) :=
  emit (Query Cdiagnosis n) ;;
  up <- ask (fun env => firestore_up env Cdiagnosis) ;;
  if up : bool then gets (fun s => take n (db_diagnosis s))
  else throw (FirestoreFailed Cdiagnosis).

(** [db.collection(c).add(doc)], where [doc] may hold a server timestamp. *)
Definition add_diagnosis (doc : Timestamp -> DiagnosisDoc) : M unit :=
  emit (Add Cdiagnosis) ;;
  up <- ask (fun env => firestore_up env Cdiagnosis) ;;
  if up : bool then
    ts <- ask serverTimestamp ;;
    modify (with_diagnosis (cons (doc ts)))
  else throw (FirestoreFailed Cdiagnosis).

Definition add_chat_history (doc : Timestamp -> ChatDoc) : M unit :=
  emit (Add Cchat_history) ;;
  up <- ask (fun env => firestore_up env Cchat_history) ;;
  if up : bool then
    ts <- ask serverTimestamp ;;
    modify (with_chat_history (cons (doc ts)))
  else throw (FirestoreFailed Cchat_history).

(** [db.collection('users').doc(uid).get()]: [None] when [!doc.exists]. *)
Definition get_user_doc (id : string) : M (option UserDoc) :=
  emit (DocGet Cusers id) ;;
  up <- ask (fun env => firestore_up env Cusers) ;;
  if up : bool then ask (fun env => users env !! id)
  else throw (FirestoreFailed Cusers).

(** ** The functions of [dashboard.js] *)

Definition loadFeatureImportance : M unit :=
  try_catch
    (data <- fetched (GET "/feature-importance") "/feature-importance" feature_importance ;;
     let labels := map feature data in
     let values := map importance data in
     set_el "featureImportanceChart" (ImportanceChart labels values))
    (fun err => emit (ConsoleError "Feature importance load error")).

Definition refreshStats : M unit :=
  try_catch
    (docs <- query_diagnosis 200 ;;
     set_el "totalRecords" (Count (length docs)) ;;
     let labels := PlainObject.keys (dist docs) in
     let data := PlainObject.values (dist docs) in
     set_el "diagChart" (BarChart labels data) ;;
     set_el "uniqueDx" (Count (length labels)) ;;
     set_el "recordsList"
       (Records (map (fun r => (or_str (patient_name r) "Unknown",
                                disease_top <$> prediction r))
                     (take 30 docs))))
    (fun err => emit (ConsoleError "refreshStats error")).

(** The listener of [predictForm]'s [submit] event. *)
Definition predictForm_submit (form : PredictForm) : M unit :=
  let payload := payload_of form in
  dRes <- postJSON "/predict-disease" (fun env => predict_disease env (FormBody payload)) ;;
  oRes <- postJSON "/predict-outcome" (fun env => predict_outcome env (FormBody payload)) ;;
  emit Alert ;;
  authUser <- gets currentUser ;;
  add_diagnosis (fun ts =>
    {| patient_name := Some (PatientName payload);
       age := Some (Age payload);
       features := Some payload;
       prediction := Some {| diseaseRes := Some dRes; outcomeRes := Some oRes;
                             disease_top := None |};
       createdAt := Some ts;
       createdBy := user_uid <$> authUser |}) ;;
  try_catch
    (postJSON "/log-metrics" log_metrics)
    (fun err => emit (ConsoleWarn "metrics log failed")) ;;
  refreshStats ;;
  loadFeatureImportance.

(** The listener of [runSymptomCheck]'s [click] event. *)
Definition runSymptomCheck (selected : list string) (form : PredictForm) : M unit :=
  match selected with
  | [] => emit Alert
  | _ =>
      let payload := symptom_payload selected form in
      try_catch
        (data <- fetched (POST "/predict-disease") "/predict-disease"
                   (fun env => predict_disease env (SymptomBody payload)) ;;
         if truthy (error data) then
           set_el "symptomResult" (Text ("Error: " ++ default "" (error data)))
         else
           let tops := default [] (top3 data) in
           set_el "symptomResult" (Suggestions tops))
        (fun err => emit (ConsoleError "Symptom check failed") ;; emit Alert)
  end.

Definition plotROC (roc : Roc) : M unit := set_el "rocCurve" (RocChart roc).

(** [cm[0][0]] and the like throw when the row is missing and show
    [undefined] when the cell is. *)
Definition renderConfMatrix (cm : list (list nat)) : M unit :=
  match cm with
  | r0 :: r1 :: _ =>
      set_el "confMatrixTable" (Table [[r0 !! 0%nat; r0 !! 1%nat]; [r1 !! 0%nat; r1 !! 1%nat]])
  | _ => throw TypeError
  end.

Definition generateModelMetricsFromRecords (limit : nat) : M unit :=
  docs <- query_diagnosis limit ;;
  let l := labeled docs in
  if (10 <? length (y_true l))%nat then
    roc <- postJSON "/roc-data" (fun env => roc_data env (y_true l) (y_prob l)) ;;
    plotROC roc ;;
    cm <- postJSON "/confusion-matrix" (fun env => confusion_matrix env (y_true l) (y_pred l)) ;;
    renderConfMatrix cm
  else
    emit (ConsoleWarn "Not enough labeled records to compute ROC/confusion (need >10)").

(** The observer that the [load] listener of the window registers. *)
Definition onAuth_load (user : option User) : M unit :=
  match user with
  | None => set_el "location" (Text "login.html")
  | Some u =>
      set_el "userName" (Text (or_str (user_displayName u) (user_email u))) ;;
      refreshStats ;;
      loadFeatureImportance ;;
      generateModelMetricsFromRecords 200
  end.

Definition loadAnalyticsCharts : M unit :=
  docs <- query_diagnosis 1000 ;;
  t <- ask now ;;
  set_el "avgRisk" (Percent (avgRisk docs)) ;;
  set_el "recordsTimeChart" (Chart (days t docs) (counts t docs)) ;;
  set_el "topDxChart" (BarChart (dxLabels docs) (dxValues docs)).

Definition is_admin_role (role : option string) : bool :=
  match role with
  | Some r => String.eqb r "admin"
  | None => false
  end.

Definition showAnalyticsIfAdmin : M unit :=
  user <- gets currentUser ;;
  match user with
  | None => ret tt
  | Some u =>
      role <- try_catch
                (doc <- get_user_doc (user_uid u) ;;
                 ret (d ← doc; role d))
                (fun e => emit (ConsoleWarn "Failed to read user role") ;; ret None) ;;
      if is_admin_role role then
        set_el "analyticsCard" (Display true) ;;
        loadAnalyticsCharts
      else
        set_el "analyticsCard" (Display false)
  end.

(** *** Chat *)

(** [auth.currentUser].  The script declares no [auth], and the [auth] of
    the auth module is local to that module ([window.AppAuth.auth] is a
    property of an object, not a binding), so the identifier has no binding
    and reading it throws. *)
Definition auth_currentUser : M (option User) := throw (ReferenceError "auth").

Definition saveChat (sender text : string) : M unit :=
  user <- auth_currentUser ;;
  match user with
  | None => ret tt
  | Some u =>
      add_chat_history (fun ts =>
        {| uid := user_uid u; sender := sender; message := text; timestamp := ts |})
  end.

Definition chat_lines (d : gmap string Content) : list (string * string) :=
  match d !! "chat-box" with
  | Some (ChatLines l) => l
  | _ => []
  end.

Definition speak (text : string) : M unit := emit (Speak text).

Definition appendMessage (sender text : string) : M unit :=
  modify (with_dom (fun d => <["chat-box" := ChatLines (chat_lines d ++ [(sender, text)])]> d)) ;;
  if String.eqb sender "AI" then speak text else ret tt.

(** [message] is [chatInput.value.trim()]. *)
Definition sendMessage (message : string) : M unit :=
  if String.eqb message "" then ret tt
  else
    appendMessage "You" message ;;
    detached (saveChat "You" message) ;;
    reply <- fetched (POST "/chat") "/chat" (fun env => chat env message) ;;
    appendMessage "AI" reply ;;
    detached (saveChat "AI" reply).

(** ** The aggregates under the names of the specification *)

Record Aggregates := {
  distribution : PlainObject.t;
  topK : list string;
  timeSeries : list string * list nat
}.

(** [distribution] is the [dist] of [refreshStats]; [topK] and [timeSeries]
    are the top diagnoses and the records per day of
    [loadAnalyticsCharts], computed at the time [t]. *)
Definition aggregate (t : Z) (window : list DiagnosisDoc) : Aggregates :=
  {| distribution := dist window;
     topK := dxLabels window;
     timeSeries := (days t window, counts t window) |}.

(** ** RefreshScheduler: listeners, timer and events *)

(** The observers that the script passes to [onAuthStateChanged]. *)
Inductive Listener :=
| LoadObserver
| AdminObserver
| TickObserver.

Definition observe (l : Listener) (user : option User) : M unit :=
  match l, user with
  | LoadObserver, _ => onAuth_load user
  | AdminObserver, None => ret tt
  | AdminObserver, Some _ => detached showAnalyticsIfAdmin
  | TickObserver, Some _ => detached showAnalyticsIfAdmin
  | TickObserver, None => ret tt
  end.

(** The page: its state, the registered auth-state observers in the order
    of registration, the number of active interval timers, and whether the
    initial auth state is known. *)
Record Page := {
  state : State;
  listeners : list Listener;
  intervals : nat;
  auth_ready : bool
}.

Inductive Event :=
| WindowLoad
| AuthStateChanged (user : option User)
| IntervalTick
| Submit (form : PredictForm)
| SymptomCheck (selected : list string) (form : PredictForm)
| SendMessage (message : string).

(** A callback whose promise nobody awaits, run to completion. *)
Definition run {A} (env : Env) (m : M A) (s : State) : State := snd (m env s).

(** [firebase.auth().onAuthStateChanged(l)]: the observer is added and,
    once the auth state is known, called with the current user. *)
Definition onAuthStateChanged (env : Env) (l : Listener) (p : Page) : Page :=
  {| state := if auth_ready p
              then run env (observe l (currentUser (state p))) (state p)
              else state p;
     listeners := listeners p ++ [l];
     intervals := intervals p;
     auth_ready := auth_ready p |}.

Definition with_state (f : State -> State) (p : Page) : Page :=
  {| state := f (state p); listeners := listeners p;
     intervals := intervals p; auth_ready := auth_ready p |}.

(** The page after the script ran: the observer of the admin check is
    registered and [setInterval] started one timer. *)
Definition script_start (s : State) : Page :=
  {| state := s; listeners := [AdminObserver]; intervals := 1; auth_ready := false |}.

Definition step (env : Env) (ev : Event) (p : Page) : Page :=
  match ev with
  | WindowLoad => onAuthStateChanged env LoadObserver p
  | AuthStateChanged user =>
      {| state := fold_left (fun s l => run env (observe l user) s) (listeners p)
                    (with_currentUser user (state p));
         listeners := listeners p;
         intervals := intervals p;
         auth_ready := true |}
  | IntervalTick => Nat.iter (intervals p) (onAuthStateChanged env TickObserver) p
  | Submit form => with_state (run env (predictForm_submit form)) p
  | SymptomCheck selected form => with_state (run env (runSymptomCheck selected form)) p
  | SendMessage message => with_state (run env (sendMessage message)) p
  end.

(** A history: each event with the environment it happens in. *)
Definition steps (evs : list (Env * Event)) (p : Page) : Page :=
  fold_left (fun p e => step (fst e) (snd e) p) evs p.

Definition count_event (P : Event -> bool) (evs : list (Env * Event)) : nat :=
  length (filter (fun e => P (snd e) = true) evs).

Definition is_load (ev : Event) : bool :=
  match ev with WindowLoad => true | _ => false end.

Definition is_tick (ev : Event) : bool :=
  match ev with IntervalTick => true | _ => false end.

(** ** Vocabulary of the statements *)

(** The distinct elements of a list, in the order of their first
    occurrence. *)
Fixpoint first_seen (l : list string) : list string :=
  match l with
  | [] => []
  | x :: l' => x :: filter (fun y => y ≠ x) (first_seen l')
  end.

(** The number of elements of [xs] whose key is [l]. *)
Definition occurrences {A} (key : A -> string) (l : string) (xs : list A) : nat :=
  length (filter (fun x => key x = l) xs).

(** Some occurrence of [a] precedes some occurrence of [b] in [l]. *)
Definition before (l : list string) (a b : string) : Prop :=
  ∃ l1 l2 l3, l = l1 ++ a :: l2 ++ b :: l3.

(** The top-k of the specification: the [k] labels with the highest count,
    labels of equal count in ascending order of the label. *)
Definition topK_spec (k : nat) (window : list DiagnosisDoc) : list string :=
  let o := dxCount window in
  let count l := match JsObj.get o l with Some (Counted n) => Z.of_nat n | _ => 0 end in
  take k (js_sort (fun a b => if count b =? count a then string_cmp a b
                              else count b - count a)
                  (PlainObject.keys o)).

(** The plain object whose own properties are those of [o], all of them
    numbers. *)
Definition counted (o : JsObj.t nat) : PlainObject.t :=
  map (fun kv => (fst kv, Counted (snd kv))) o.

(** The role that [showAnalyticsIfAdmin] resolves for the user [id]. *)
Definition resolved_role (env : Env) (id : string) : option string :=
  if firestore_up env Cusers then d ← users env !! id; role d else None.

(** The order that sorting by descending count gives: a label of higher
    count first, labels of equal count in the order of the sorted list. *)
Definition count_order (c : string -> Z) (l : list string) (a b : string) : Prop :=
  c b < c a ∨ (c a = c b ∧ before l a b).

(** [m] takes every state to a [Q]-related one, whatever its outcome. *)
Definition keeps (Q : State -> State -> Prop) {A} (m : M A) : Prop :=
  ∀ env s, Q s (snd (m env s)).

(** The stores and the signed-in user are left as they were. *)
Definition same_stores (s s' : State) : Prop :=
  db_diagnosis s' = db_diagnosis s
  ∧ db_chat_history s' = db_chat_history s
  ∧ currentUser s' = currentUser s.

(** The trace only grows, and no effect [e] is added to it. *)
Definition adds_no (e : Effect) (s s' : State) : Prop :=
  ∃ t, trace s' = t ++ trace s ∧ e ∉ t.

(** ** Sample data *)

Definition empty_state : State :=
  {| db_diagnosis := []; db_chat_history := []; currentUser := None;
     dom := ∅; trace := [] |}.

Definition flu_response : DiseaseRes :=
  {| top3 := Some [{| disease := Some "Flu"; confidence := Some 0.8%float |}];
     error := None |}.

Definition high_risk_response : OutcomeRes :=
  {| risk := Some "HighRisk"; probability := Some 0.7%float |}.

(** An environment in which every request resolves; the prediction service
    answers with [d] and [o]. *)
Definition env_ok (d : DiseaseRes) (o : OutcomeRes) : Env :=
  {| firestore_up := fun _ => true;
     users := ∅;
     serverTimestamp := {| toDate := 1793577600000 |};
     now := 1793577600000;
     predict_disease := fun _ => Resolved d;
     predict_outcome := fun _ => Resolved o;
     log_metrics := Resolved tt;
     feature_importance := Resolved [];
     roc_data := fun _ _ => Resolved {| fpr := []; tpr := []; auc := None |};
     confusion_matrix := fun _ _ => Resolved [[0; 0]; [0; 0]]%nat;
     chat := fun _ => Resolved "ok" |}.

Definition blank_form : PredictForm :=
  {| el_pname := ""; el_age := Blank; el_gender := ""; el_fever := false;
     el_cough := false; el_fatigue := false; el_dbreath := false;
     el_temp := Blank; el_hr := Blank; el_rr := Blank; el_spo2 := Blank;
     el_bp_cat := ""; el_chol := "" |}.

(** The form with [Age = 45] and [Fever] checked. *)
Definition form_45_fever : PredictForm :=
  {| el_pname := ""; el_age := Num 45; el_gender := ""; el_fever := true;
     el_cough := false; el_fatigue := false; el_dbreath := false;
     el_temp := Blank; el_hr := Blank; el_rr := Blank; el_spo2 := Blank;
     el_bp_cat := ""; el_chol := "" |}.

(** A stored record with the given top-3 disease, risk, probability and
    creation time. *)
Definition record (d : option string) (r : string) (p : float) (t : option Timestamp)
  : DiagnosisDoc :=
  {| patient_name := None; age := None;
     features := Some (payload_of blank_form);
     prediction := Some {| diseaseRes := Some {| top3 := Some [{| disease := d; confidence := None |}];
                                                  error := None |};
                           outcomeRes := Some {| risk := Some r; probability := Some p |};
                           disease_top := None |};
     createdAt := t; createdBy := None |}.

(** The answer of the prediction service when it fails with a JSON body,
    the case that the symptom checker tests with [data.error]. *)
Definition error_response : DiseaseRes :=
  {| top3 := None; error := Some "model not loaded" |}.

Definition with_users (m : gmap string UserDoc) (env : Env) : Env :=
  {| firestore_up := firestore_up env; users := m;
     serverTimestamp := serverTimestamp env; now := now env;
     predict_disease := predict_disease env; predict_outcome := predict_outcome env;
     log_metrics := log_metrics env; feature_importance := feature_importance env;
     roc_data := roc_data env; confusion_matrix := confusion_matrix env;
     chat := chat env |}.

Definition with_now (t : Z) (env : Env) : Env :=
  {| firestore_up := firestore_up env; users := users env;
     serverTimestamp := serverTimestamp env; now := t;
     predict_disease := predict_disease env; predict_outcome := predict_outcome env;
     log_metrics := log_metrics env; feature_importance := feature_importance env;
     roc_data := roc_data env; confusion_matrix := confusion_matrix env;
     chat := chat env |}.

Definition dr_osei : User :=
  {| user_uid := "u1"; user_displayName := Some "Dr Osei"; user_email := "osei@clinic.example" |}.

(** An environment whose [users] collection gives [dr_osei] the role [r]. *)
Definition env_role (r : string) : Env :=
  with_users {[ "u1" := {| email := "osei@clinic.example"; displayName := "Dr Osei";
                           role := Some r |} ]}
    (env_ok flu_response high_risk_response).

(** A store with [n] labeled records. *)
Definition state_with (n : nat) : State :=
  {| db_diagnosis := replicate n (record (Some "Flu") "High Risk" 0.9 (Some {| toDate := 0 |}));
     db_chat_history := []; currentUser := None; dom := ∅; trace := [] |}.

(** ** [String.prototype.trim]

    A string is the UTF-8 encoding of its text.  [trim] removes the white
    space and line terminators of ECMAScript from both ends: U+0009 to
    U+000D, U+0020, U+00A0, U+1680, U+2000 to U+200A, U+2028, U+2029,
    U+202F, U+205F, U+3000 and U+FEFF. *)

Definition byte_is (c : ascii) (n : nat) : bool := Nat.eqb (nat_of_ascii c) n.

Definition ws1 (a : ascii) : bool :=
  (Nat.leb 9 (nat_of_ascii a) && Nat.leb (nat_of_ascii a) 13) || byte_is a 32.

Definition ws2 (a b : ascii) : bool := byte_is a 194 && byte_is b 160.

Definition ws3 (a b c : ascii) : bool :=
  (byte_is a 225 && byte_is b 154 && byte_is c 128)
  || (byte_is a 226 && byte_is b 128
      && ((Nat.leb 128 (nat_of_ascii c) && Nat.leb (nat_of_ascii c) 138)
          || byte_is c 168 || byte_is c 169 || byte_is c 175))
  || (byte_is a 226 && byte_is b 129 && byte_is c 159)
  || (byte_is a 227 && byte_is b 128 && byte_is c 128)
  || (byte_is a 239 && byte_is b 187 && byte_is c 191).

Fixpoint trimStart (s : string) : string :=
  match s with
  | String a r =>
      if ws1 a then trimStart r
      else match r with
           | String b r2 =>
               if ws2 a b then trimStart r2
               else match r2 with
                    | String c r3 => if ws3 a b c then trimStart r3 else s
                    | EmptyString => s
                    end
           | EmptyString => s
           end
  | EmptyString => s
  end.

(** A text made of white space only trims to nothing; otherwise its first
    byte stays and the rest is trimmed at its end. *)
Fixpoint trimEnd (s : string) : string :=
  match s with
  | String a r => if String.eqb (trimStart s) "" then "" else String a (trimEnd r)
  | EmptyString => ""
  end.

Definition trim (s : string) : string := trimEnd (trimStart s).

(** ** The first chat of the page: [openChatModal], [appendChat] and
    [sendChatMessage] *)

(** The answer of [/api/chat]. *)
Record ChatRes := { reply : option string }.

(** The elements that [getElementById] finds under the ids of the chat
    modal: [chatModal] is [None] while there is no such element and its
    [style.display] otherwise; [chatWindow] holds the bubbles as role and
    text, [chatInput] the value of the input, [sendChat_listener] whether
    [sendChatMessage] listens to clicks on [sendChat].  The modal is
    appended at the end of [body] and [getElementById] finds the first
    element with an id, so making the modal adds an element only where the
    page has none; until then the field holds the state of that new element:
    no bubble, no text, no listener. *)
Record ChatUi := {
  chatModal : option string;
  chatWindow : list (string * string);
  chatInput : string;
  sendChat_listener : bool;
  chat_errors : nat
}.

Definition with_chatWindow (f : list (string * string) -> list (string * string))
    (ui : ChatUi) : ChatUi :=
  {| chatModal := chatModal ui;
     chatWindow := f (chatWindow ui);
     chatInput := chatInput ui;
     sendChat_listener := sendChat_listener ui;
     chat_errors := chat_errors ui |}.

(** [input.value = v], by the script or by the user who types. *)
Definition with_chatInput (v : string) (ui : ChatUi) : ChatUi :=
  {| chatModal := chatModal ui;
     chatWindow := chatWindow ui;
     chatInput := v;
     sendChat_listener := sendChat_listener ui;
     chat_errors := chat_errors ui |}.

Definition appendChat (role text : string) (ui : ChatUi) : ChatUi :=
  with_chatWindow (fun w => w ++ [(role, text)]) ui.

Definition showChat (ui : ChatUi) : ChatUi :=
  {| chatModal := Some "block";
     chatWindow := chatWindow ui;
     chatInput := chatInput ui;
     sendChat_listener := sendChat_listener ui;
     chat_errors := chat_errors ui |}.

(** A listener that is added to an element twice is kept once. *)
Definition openChatModal (ui : ChatUi) : ChatUi :=
  match chatModal ui with
  | Some _ => showChat ui
  | None =>
      {| chatModal := Some "";
         chatWindow := chatWindow ui;
         chatInput := chatInput ui;
         sendChat_listener := true;
         chat_errors := chat_errors ui |}
  end.

(** [if (last) last.remove()] on [chatWindow.lastChild]. *)
Definition remove_last (ui : ChatUi) : ChatUi := with_chatWindow (@removelast _) ui.

Definition chat_console_error (ui : ChatUi) : ChatUi :=
  {| chatModal := chatModal ui;
     chatWindow := chatWindow ui;
     chatInput := chatInput ui;
     sendChat_listener := sendChat_listener ui;
     chat_errors := S (chat_errors ui) |}.

(** [sendChatMessage] up to its [await]: the message that is posted to
    [/api/chat], if any. *)
Definition sendChatMessage_begin (ui : ChatUi) : option string * ChatUi :=
  let msg := trim (chatInput ui) in
  if String.eqb msg "" then (None, ui)
  else (Some msg,
        appendChat "ai" "Thinking..." (with_chatInput "" (appendChat "user" msg ui))).

(** [sendChatMessage] from its [await] on, given the outcome [r] of
    [postJSON('/api/chat', { message: msg })]; a [reply] that is missing or
    empty shows the answer object itself. *)
Definition sendChatMessage_end (r : Fetch ChatRes) (ui : ChatUi) : ChatUi :=
  match r with
  | Resolved res => appendChat "ai" (or_str (reply res) "[object Object]") (remove_last ui)
  | Rejected => appendChat "ai" "Failed to get answer." (chat_console_error ui)
  end.

(** [sendChatMessage] when nothing else happens before the answer. *)
Definition sendChatMessage (res : string -> Fetch ChatRes) (ui : ChatUi) : ChatUi :=
  match sendChatMessage_begin ui with
  | (None, ui') => ui'
  | (Some msg, ui') => sendChatMessage_end (res msg) ui'
  end.

(** A click on [sendChat]. *)
Definition click_sendChat (res : string -> Fetch ChatRes) (ui : ChatUi) : ChatUi :=
  if sendChat_listener ui then sendChatMessage res ui else ui.

(** ** The second chat: the input of [sendMessage] and the voice input *)

(** [sendMessage] from the value of [chatInput]. *)
Definition sendMessage_input (value : string) : M unit := sendMessage (trim value).

(** [recognition.onresult]: the transcript is put in [chatInput] and sent. *)
Definition onresult (transcript : string) : M unit := sendMessage_input transcript.

(** ** Patient profiles: the [click] listener of [savePatientBtn] *)

Record PatientForm := {
  pf_name : string;
  pf_age : InputValue;
  pf_gender : string;
  pf_phone : string;
  pf_bp : string
}.

Record PatientDoc := {
  name : string;
  patient_age : float;
  gender : string;
  phone : string;
  blood_pressure : string;
  patient_createdBy : option string;
  patient_createdAt : Timestamp
}.

Inductive PatientEffect :=
| PatientAlert (msg : string)
| PatientAdd
| PatientConsoleError (msg : string).

(** The form, the [patients] collection by document id (newest first), and
    what the listener did (newest first). *)
Record PatientPage := {
  patient_form : PatientForm;
  db_patients : list (string * PatientDoc);
  patient_effects : list PatientEffect
}.

(** [add] resolves with the id of the new document or rejects, with an
    error whose [message] is [err]. *)
Definition savePatient (user : option User) (ts : Timestamp) (add : Fetch string)
    (err : string) (p : PatientPage) : PatientPage :=
  let f := patient_form p in
  let name := trim (pf_name f) in
  let age := Number_or (pf_age f) 0 in
  let phone := trim (pf_phone f) in
  if String.eqb name "" then
    {| patient_form := f; db_patients := db_patients p;
       patient_effects := PatientAlert "Patient name required" :: patient_effects p |}
  else
    let doc := {| name := name; patient_age := age; gender := pf_gender f; phone := phone;
                  blood_pressure := pf_bp f;
                  patient_createdBy := user_uid <$> user;
                  patient_createdAt := ts |} in
    match add with
    | Resolved id =>
        {| patient_form := {| pf_name := ""; pf_age := Blank; pf_gender := pf_gender f;
                              pf_phone := ""; pf_bp := pf_bp f |};
           db_patients := (id, doc) :: db_patients p;
           patient_effects :=
             PatientAlert ("Patient profile saved (id: " ++ id ++ ")")
               :: PatientAdd :: patient_effects p |}
    | Rejected =>
        {| patient_form := f; db_patients := db_patients p;
           patient_effects :=
             PatientAlert ("Save patient failed: " ++ err)
               :: PatientConsoleError "Save patient failed"
               :: PatientAdd :: patient_effects p |}
    end.

(** ** The auth module: [register] and [getUserRole] *)

(** What [register] changes: the accounts of the auth service and the
    [users] collection. *)
Record AuthWorld := {
  accounts : list User;
  users_docs : gmap string UserDoc
}.

(** [register(email, password, displayName, role = 'doctor')]: [created]
    is the outcome of [createUserWithEmailAndPassword] (the uid of the new
    account), [profile_ok] and [set_ok] are whether [updateProfile] and the
    write of [users/{uid}] resolve; [role] is [None] when the argument is
    left out.  The [createdAt] of the document is left out. *)
Definition register (created : Fetch string) (profile_ok set_ok : bool)
    (email displayName : string) (role : option string) (w : AuthWorld)
  : Outcome User * AuthWorld :=
  match created with
  | Rejected => (Throw (FetchFailed "createUserWithEmailAndPassword"), w)
  | Resolved id =>
      let fresh := {| user_uid := id; user_displayName := None; user_email := email |} in
      let named := {| user_uid := id; user_displayName := Some displayName;
                      user_email := email |} in
      if profile_ok then
        if set_ok then
          (Return named,
           {| accounts := named :: accounts w;
              users_docs := <[id := {| email := email; displayName := displayName;
                                       role := Some (default "doctor" role) |}]>
                              (users_docs w) |})
        else (Throw (FirestoreFailed Cusers),
              {| accounts := named :: accounts w; users_docs := users_docs w |})
      else (Throw (FetchFailed "updateProfile"),
            {| accounts := fresh :: accounts w; users_docs := users_docs w |})
  end.

(** [getUserRole(uid)] *)
Definition getUserRole (id : string) : M (option string) :=
  doc <- get_user_doc id ;;
  match doc with
  | None => ret None
  | Some d => ret (role d)
  end.

(** ** More sample data *)

Definition with_firestore (up : Collection -> bool) (env : Env) : Env :=
  {| firestore_up := up; users := users env;
     serverTimestamp := serverTimestamp env; now := now env;
     predict_disease := predict_disease env; predict_outcome := predict_outcome env;
     log_metrics := log_metrics env; feature_importance := feature_importance env;
     roc_data := roc_data env; confusion_matrix := confusion_matrix env;
     chat := chat env |}.


Definition with_chat (r : string -> Fetch string) (env : Env) : Env :=
  {| firestore_up := firestore_up env; users := users env;
     serverTimestamp := serverTimestamp env; now := now env;
     predict_disease := predict_disease env; predict_outcome := predict_outcome env;
     log_metrics := log_metrics env; feature_importance := feature_importance env;
     roc_data := roc_data env; confusion_matrix := confusion_matrix env;
     chat := r |}.

(** A record of the earlier schema: [disease_top] and no [diseaseRes]. *)
Definition legacy_record (d : string) : DiagnosisDoc :=
  {| patient_name := None; age := None; features := None;
     prediction := Some {| diseaseRes := None; outcomeRes := None; disease_top := Some d |};
     createdAt := None; createdBy := None |}.

(** [a] is not after [b] in the order of [sort()]. *)
Definition string_le (a b : string) : Prop := String.compare a b ≠ Gt.

(** The requests for a [users] document in a trace. *)
Definition is_lookup (e : Effect) : bool :=
  match e with
  | DocGet Cusers _ => true
  | _ => false
  end.

Definition lookups (tr : list Effect) : nat :=
  length (filter (fun e => is_lookup e = true) tr).

(** No request for a [users] document is made. *)
Definition same_lookups (s s' : State) : Prop := lookups (trace s') = lookups (trace s).

Definition is_load_observer (l : Listener) : bool :=
  match l with LoadObserver => true | _ => false end.

(** The observers that read the role of the user who signs in. *)
Definition role_readers (ls : list Listener) : nat :=
  length (filter (fun l => is_load_observer l = false) ls).

(** * Properties *)

(** ** Counting objects *)

Lemma get_set {V} (o : JsObj.t V) k v l :
  JsObj.get (JsObj.set o k v) l = if String.eqb k l then Some v else JsObj.get o l.
Proof.
  induction o as [|[k' v'] o IH]; simpl.
  - reflexivity.
  - destruct (String.eqb_spec k' k) as [->|Hk]; simpl.
    + destruct (String.eqb k l); reflexivity.
    + rewrite IH. destruct (String.eqb_spec k' l) as [->|Hl]; [|reflexivity].
      destruct (String.eqb_spec k l) as [->|]; congruence.
Qed.

Lemma keys_set {V} (o : JsObj.t V) k v :
  JsObj.keys (JsObj.set o k v) =
  if decide (k ∈ JsObj.keys o) then JsObj.keys o else JsObj.keys o ++ [k].
Proof.
  unfold JsObj.keys.
  induction o as [|[k' v'] o IH]; cbn [JsObj.set map fst].
  - destruct (decide (k ∈ [])) as [Hin|_]; [|reflexivity].
    now apply not_elem_of_nil in Hin.
  - destruct (String.eqb_spec k' k) as [->|Hk]; cbn [map fst].
    + destruct (decide (k ∈ k :: map fst o)) as [_|Hin]; [reflexivity|].
      exfalso. apply Hin. left.
    + rewrite IH.
      destruct (decide (k ∈ map fst o)) as [H1|H1], (decide (k ∈ k' :: map fst o)) as [H2|H2];
        try reflexivity; exfalso.
      * apply H2. now right.
      * apply elem_of_cons in H2 as [?|?]; congruence.
Qed.

Lemma sum_values_set (o : JsObj.t nat) k v :
  (sum_list (JsObj.values (JsObj.set o k v)) + default 0 (JsObj.get o k) =
   sum_list (JsObj.values o) + v)%nat.
Proof.
  unfold JsObj.values.
  induction o as [|[k' v'] o IH]; cbn [JsObj.set JsObj.get map snd sum_list].
  - simpl. lia.
  - destruct (String.eqb k' k); simpl; lia.
Qed.

Lemma sum_values_bump o k :
  sum_list (JsObj.values (JsObj.bump o k)) = S (sum_list (JsObj.values o)).
Proof.
  unfold JsObj.bump.
  pose proof (sum_values_set o k (S (default 0%nat (JsObj.get o k)))). lia.
Qed.

Lemma sum_values_fold {A} (key : A -> string) xs o :
  sum_list (JsObj.values (fold_left (fun o x => JsObj.bump o (key x)) xs o)) =
  (sum_list (JsObj.values o) + length xs)%nat.
Proof.
  revert o. induction xs as [|x xs IH]; intros o; simpl.
  - lia.
  - rewrite IH, sum_values_bump. lia.
Qed.

Lemma sum_values_tally {A} (key : A -> string) xs :
  sum_list (JsObj.values (JsObj.tally key xs)) = length xs.
Proof. unfold JsObj.tally. rewrite sum_values_fold. reflexivity. Qed.

Lemma get_fold {A} (key : A -> string) xs o l :
  default 0%nat (JsObj.get (fold_left (fun o x => JsObj.bump o (key x)) xs o) l) =
  (default 0%nat (JsObj.get o l) + occurrences key l xs)%nat.
Proof.
  unfold occurrences.
  revert o. induction xs as [|x xs IH]; intros o; cbn [fold_left].
  - rewrite filter_nil. simpl. lia.
  - rewrite IH. unfold JsObj.bump at 1. rewrite get_set, filter_cons.
    destruct (String.eqb_spec (key x) l) as [Heq|Hne].
    + rewrite decide_True by assumption. subst l. simpl. lia.
    + rewrite decide_False by assumption. reflexivity.
Qed.

Lemma get_tally {A} (key : A -> string) xs l :
  default 0%nat (JsObj.get (JsObj.tally key xs) l) = occurrences key l xs.
Proof. unfold JsObj.tally. rewrite get_fold. reflexivity. Qed.

Lemma filter_filter_notin (k : string) (seen l : list string) :
  filter (fun y => y ∉ seen ++ [k]) l = filter (fun y => y ∉ seen) (filter (fun y => y ≠ k) l).
Proof.
  rewrite list_filter_filter. apply list_filter_iff. intros x.
  rewrite elem_of_app, list_elem_of_singleton. tauto.
Qed.

Lemma filter_ne_absorbed (k : string) (seen l : list string) :
  k ∈ seen →
  filter (fun y => y ∉ seen) (filter (fun y => y ≠ k) l) = filter (fun y => y ∉ seen) l.
Proof.
  intros Hk. rewrite list_filter_filter. apply list_filter_iff. intros x.
  split; [tauto|]. intros Hx. split; [assumption|]. intros ->. auto.
Qed.

Lemma keys_fold {A} (key : A -> string) xs o :
  JsObj.keys (fold_left (fun o x => JsObj.bump o (key x)) xs o) =
  JsObj.keys o ++ filter (fun y => y ∉ JsObj.keys o) (first_seen (map key xs)).
Proof.
  revert o. induction xs as [|x xs IH]; intros o; cbn [fold_left map first_seen].
  - rewrite filter_nil, app_nil_r. reflexivity.
  - rewrite IH.
    assert (Hb : JsObj.keys (JsObj.bump o (key x)) =
                 if decide (key x ∈ JsObj.keys o) then JsObj.keys o
                 else JsObj.keys o ++ [key x]) by apply keys_set.
    rewrite Hb, filter_cons. clear Hb.
    destruct (decide (key x ∈ JsObj.keys o)) as [Hin|Hin];
      destruct (decide (key x ∉ JsObj.keys o)) as [Hout|Hout]; try tauto.
    + rewrite filter_ne_absorbed by assumption. reflexivity.
    + rewrite filter_filter_notin, <- app_assoc. reflexivity.
Qed.

Lemma keys_tally {A} (key : A -> string) xs :
  JsObj.keys (JsObj.tally key xs) = first_seen (map key xs).
Proof.
  unfold JsObj.tally. rewrite keys_fold. cbn [JsObj.keys JsObj.empty map app].
  induction (first_seen (map key xs)) as [|y l IH]; [reflexivity|].
  rewrite filter_cons.
  destruct (decide (y ∉ [])) as [_|Hn]; [f_equal; apply IH|].
  exfalso. apply Hn, not_elem_of_nil.
Qed.

Lemma first_seen_elem (l : list string) x : x ∈ first_seen l ↔ x ∈ l.
Proof.
  induction l as [|y l IH]; simpl; [reflexivity|].
  rewrite !elem_of_cons, list_elem_of_filter, IH.
  destruct (decide (x = y)); tauto.
Qed.

Lemma first_seen_NoDup (l : list string) : NoDup (first_seen l).
Proof.
  induction l as [|y l IH]; simpl; constructor.
  - rewrite list_elem_of_filter. intros [Hy _]. now apply Hy.
  - apply NoDup_filter, IH.
Qed.

(** ** Sanity checks of the model *)

Example iso_day_epoch : Date_day 0 = "1970-01-01".
Proof. reflexivity. Qed.

Example iso_day_leap : Date_day 1709251199000 = "2024-02-29".
Proof. reflexivity. Qed.

Example iso_day_before_epoch : Date_day (-1) = "1969-12-31".
Proof. reflexivity. Qed.

Example days_are_sorted :
  days 0 [record None "LowRisk" 0.5 (Some {| toDate := 1709251199000 |});
          record None "LowRisk" 0.5 None;
          record None "LowRisk" 0.5 (Some {| toDate := 1 |})]
  = ["1970-01-01"; "2024-02-29"].
Proof. reflexivity. Qed.

Example plain_object_keys :
  PlainObject.keys (PlainObject.tally id ["Flu"; "10"; "007"; "2"; "Flu"])
  = ["2"; "10"; "Flu"; "007"].
Proof. reflexivity. Qed.

Example plain_object_inherited :
  PlainObject.tally id ["constructor"; "__proto__"; "Flu"; "constructor"]
  = [("constructor", Spoiled "constructor" 2); ("Flu", Counted 1)].
Proof. reflexivity. Qed.

Example dxLabels_by_count :
  dxLabels [record (Some "Flu") "LowRisk" 0.5 None;
            record (Some "Cold") "LowRisk" 0.5 None;
            record (Some "Cold") "LowRisk" 0.5 None;
            record None "LowRisk" 0.5 None]
  = ["Cold"; "Flu"; "Unknown"].
Proof. reflexivity. Qed.

Example labeled_high_risk :
  labeled [record (Some "Flu") "High Risk" 0.9 None; record (Some "Flu") "HighRisk" 0.25 None]
  = {| y_true := [1; 0]%nat; y_prob := [0.9; 0.25]%float; y_pred := [1; 0]%nat |}.
Proof. reflexivity. Qed.

Example admin_sees_analytics :
  trace (state (steps [(env_role "admin", AuthStateChanged (Some dr_osei))]
                      (script_start (state_with 2))))
  = [Query Cdiagnosis 1000; DocGet Cusers "u1"].
Proof. reflexivity. Qed.

(** ** The stable sort *)

Lemma sort_insert_perm {A} (cmp : A -> A -> Z) x l : sort_insert cmp x l ≡ₚ x :: l.
Proof.
  induction l as [|y l IH]; cbn [sort_insert]; [reflexivity|].
  destruct (0 <? cmp x y); [|reflexivity].
  rewrite IH. apply perm_swap.
Qed.

Lemma js_sort_perm {A} (cmp : A -> A -> Z) l : js_sort cmp l ≡ₚ l.
Proof.
  induction l as [|x l IH]; cbn [js_sort fold_right]; [reflexivity|].
  rewrite sort_insert_perm. constructor. exact IH.
Qed.

Lemma StronglySorted_weaken {A} (R R' : A -> A -> Prop) l :
  (∀ a b, R a b → R' a b) → StronglySorted R l → StronglySorted R' l.
Proof.
  intros HR Hs. induction Hs as [|y l Hs IH Hy]; constructor; [exact IH|].
  eapply Forall_impl; [exact Hy|]. intros b. apply HR.
Qed.

Lemma before_cons x l a b : before l a b → before (x :: l) a b.
Proof. intros (l1 & l2 & l3 & ->). now exists (x :: l1), l2, l3. Qed.

Lemma before_head x l z : z ∈ l → before (x :: l) x z.
Proof.
  intros (l2 & l3 & ->)%list_elem_of_split. now exists [], l2, l3.
Qed.

Lemma count_order_cons c x l a b : count_order c l a b → count_order c (x :: l) a b.
Proof. intros [H|[H1 H2]]; [now left|right]. split; [exact H1|now apply before_cons]. Qed.

Lemma count_order_le c l a b : count_order c l a b → c b <= c a.
Proof. intros [H|[H _]]; lia. Qed.

Lemma sort_insert_count_order c x l S :
  (∀ z, z ∈ S → z ∈ l) →
  StronglySorted (count_order c l) S →
  StronglySorted (count_order c (x :: l)) (sort_insert (fun a b => c b - c a) x S).
Proof.
  intros Hin Hs. induction Hs as [|y S Hs IH Hy]; cbn [sort_insert].
  - repeat constructor.
  - assert (Hin' : ∀ z, z ∈ S → z ∈ l) by (intros z Hz; apply Hin; now right).
    destruct (Z.ltb_spec 0 (c y - c x)) as [Hc|Hc].
    + constructor; [now apply IH|].
      rewrite sort_insert_perm. constructor.
      * left. lia.
      * eapply Forall_impl; [exact Hy|]. intros b. apply count_order_cons.
    + constructor.
      * apply (StronglySorted_weaken (count_order c l)); [apply count_order_cons|].
        now constructor.
      * assert (Hx : ∀ z, z ∈ l → c z <= c x → count_order c (x :: l) x z).
        { intros z Hz Hle. destruct (Z.eq_dec (c z) (c x)) as [Heq|Hne].
          - right. split; [lia|now apply before_head].
          - left. lia. }
        constructor.
        -- apply Hx; [apply Hin; left|lia].
        -- rewrite Forall_forall in Hy |- *. intros z Hz.
           apply Hx; [now apply Hin'|].
           pose proof (count_order_le _ _ _ _ (Hy z Hz)). lia.
Qed.

Lemma js_sort_count_order (c : string -> Z) (l : list string) :
  StronglySorted (count_order c l) (js_sort (fun a b => c b - c a) l).
Proof.
  induction l as [|x l IH]; cbn [js_sort fold_right]; [constructor|].
  apply sort_insert_count_order; [|exact IH].
  intros z Hz. now rewrite <- (js_sort_perm (fun a b => c b - c a) l).
Qed.

(** ** Plain objects

    On keys that name no property of [Object.prototype], a plain object
    counts like the list of its own properties; [Object.keys] lists the
    array indices first. *)

Lemma get_by_keys (o : JsObj.t nat) :
  NoDup (JsObj.keys o) →
  map (fun k => default 0%nat (JsObj.get o k)) (JsObj.keys o) = JsObj.values o.
Proof.
  unfold JsObj.keys, JsObj.values.
  induction o as [|[k v] o IH]; intros Hnd; [reflexivity|].
  cbn [map fst snd] in *. apply NoDup_cons in Hnd as [Hk Hnd].
  cbn [JsObj.get]. rewrite String.eqb_refl. cbn [default]. f_equal.
  rewrite <- (IH Hnd). apply map_ext_in. intros k' Hk'.
  destruct (String.eqb_spec k k') as [->|_]; [|reflexivity].
  exfalso. apply Hk. now apply list_elem_of_In.
Qed.

Lemma keys_tally_NoDup {A} (key : A -> string) (xs : list A) :
  NoDup (JsObj.keys (JsObj.tally key xs)).
Proof. rewrite keys_tally. apply first_seen_NoDup. Qed.

Lemma occurrences_pos {A} (key : A -> string) (xs : list A) (l : string) :
  l ∈ map key xs → (1 ≤ occurrences key l xs)%nat.
Proof.
  unfold occurrences. intros (x & -> & Hx)%list_elem_of_fmap.
  assert (Hin : x ∈ filter (fun y => key y = key x) xs)
    by (apply list_elem_of_filter; split; [reflexivity|exact Hx]).
  destruct (filter _ xs); [now apply not_elem_of_nil in Hin|cbn; lia].
Qed.

Lemma sum_list_perm (l1 l2 : list nat) : l1 ≡ₚ l2 → sum_list l1 = sum_list l2.
Proof. intros H. induction H; cbn; lia. Qed.

(** The counts read back along any enumeration of the keys add up to the
    number of tallied elements. *)
Lemma tally_counts_along {A} (key : A -> string) (xs : list A) (ks : list string) :
  ks ≡ₚ JsObj.keys (JsObj.tally key xs) →
  sum_list (map (fun k => default 0%nat (JsObj.get (JsObj.tally key xs) k)) ks) = length xs.
Proof.
  intros Hp.
  rewrite (sum_list_perm _ (map (fun k => default 0%nat (JsObj.get (JsObj.tally key xs) k))
                                (JsObj.keys (JsObj.tally key xs)))).
  - rewrite get_by_keys by apply keys_tally_NoDup. apply sum_values_tally.
  - now apply Permutation_map.
Qed.

Lemma get_counted (o : JsObj.t nat) (k : string) :
  JsObj.get (counted o) k = Counted <$> JsObj.get o k.
Proof.
  induction o as [|[k' v] o IH]; cbn [counted map JsObj.get fst snd]; [reflexivity|].
  destruct (String.eqb k' k); [reflexivity|exact IH].
Qed.

Lemma set_counted (o : JsObj.t nat) (k : string) (v : nat) :
  JsObj.set (counted o) k (Counted v) = counted (JsObj.set o k v).
Proof.
  induction o as [|[k' v'] o IH]; cbn [counted map JsObj.set fst snd]; [reflexivity|].
  destruct (String.eqb k' k); cbn [map fst snd]; [reflexivity|].
  f_equal. exact IH.
Qed.

Lemma keys_counted (o : JsObj.t nat) : JsObj.keys (counted o) = JsObj.keys o.
Proof. unfold JsObj.keys, counted. rewrite map_map. reflexivity. Qed.

Lemma bump_counted (o : JsObj.t nat) (k : string) :
  PlainObject.inherited k = false →
  PlainObject.bump (counted o) k = counted (JsObj.bump o k).
Proof.
  intros Hk. unfold PlainObject.bump, JsObj.bump. rewrite get_counted.
  destruct (JsObj.get o k) as [n|]; cbn [fmap option_fmap option_map default].
  - apply set_counted.
  - rewrite Hk. destruct (String.eqb_spec k "__proto__") as [->|_]; [discriminate|].
    apply set_counted.
Qed.

Lemma tally_counted {A} (key : A -> string) (xs : list A) :
  Forall (fun x => PlainObject.inherited (key x) = false) xs →
  PlainObject.tally key xs = counted (JsObj.tally key xs).
Proof.
  unfold PlainObject.tally, JsObj.tally.
  change (@JsObj.empty Tally) with (counted JsObj.empty).
  generalize (@JsObj.empty nat).
  induction xs as [|x xs IH]; intros o H; cbn [fold_left]; [reflexivity|].
  apply Forall_cons in H as [Hx Hxs]. rewrite (bump_counted o _ Hx). now apply IH.
Qed.

Lemma key_order_perm (ks : list string) : PlainObject.key_order ks ≡ₚ ks.
Proof.
  unfold PlainObject.key_order. rewrite js_sort_perm.
  induction ks as [|k ks IH]; [reflexivity|].
  rewrite !filter_cons.
  destruct (decide (PlainObject.is_index k = true)) as [Hk|Hk];
    destruct (decide (PlainObject.is_index k = false)) as [Hk'|Hk'].
  - congruence.
  - cbn [app]. now constructor.
  - rewrite <- Permutation_middle. now constructor.
  - destruct (PlainObject.is_index k); congruence.
Qed.

Lemma key_order_plain (ks : list string) :
  Forall (fun k => PlainObject.is_index k = false) ks → PlainObject.key_order ks = ks.
Proof.
  intros H. unfold PlainObject.key_order.
  assert (H1 : filter (fun k => PlainObject.is_index k = true) ks = []).
  { induction H as [|k ks Hk _ IH]; [reflexivity|].
    rewrite filter_cons. destruct (decide (PlainObject.is_index k = true)); [congruence|exact IH]. }
  assert (H2 : filter (fun k => PlainObject.is_index k = false) ks = ks).
  { clear H1. induction H as [|k ks Hk _ IH]; [reflexivity|].
    rewrite filter_cons. destruct (decide (PlainObject.is_index k = false)); [|congruence].
    f_equal. exact IH. }
  rewrite H1, H2. reflexivity.
Qed.

Lemma sort_insert_ext {A} (cmp cmp' : A -> A -> Z) (x : A) (l : list A) :
  (∀ b, b ∈ l → cmp x b = cmp' x b) → sort_insert cmp x l = sort_insert cmp' x l.
Proof.
  induction l as [|y l IH]; intros H; cbn [sort_insert]; [reflexivity|].
  rewrite (H y) by now left. destruct (0 <? cmp' x y); [|reflexivity].
  f_equal. apply IH. intros b Hb. apply H. now right.
Qed.

Lemma js_sort_ext {A} (cmp cmp' : A -> A -> Z) (l : list A) :
  (∀ a b, a ∈ l → b ∈ l → cmp a b = cmp' a b) → js_sort cmp l = js_sort cmp' l.
Proof.
  induction l as [|x l IH]; intros H; cbn [js_sort fold_right]; [reflexivity|].
  fold (js_sort cmp l) (js_sort cmp' l).
  rewrite IH by (intros a b Ha Hb; apply H; now right).
  apply sort_insert_ext. intros b Hb. apply H; [now left|].
  right. now rewrite <- (js_sort_perm cmp' l).
Qed.

(** On a window without inherited labels: the keys, and what reading a
    label gives. *)
Lemma plain_tally_keys {A} (key : A -> string) (xs : list A) :
  Forall (fun x => PlainObject.inherited (key x) = false) xs →
  PlainObject.keys (PlainObject.tally key xs) = PlainObject.key_order (first_seen (map key xs)).
Proof.
  intros H. unfold PlainObject.keys. now rewrite (tally_counted key xs H), keys_counted, keys_tally.
Qed.

Lemma plain_tally_get {A} (key : A -> string) (xs : list A) (l : string) :
  Forall (fun x => PlainObject.inherited (key x) = false) xs →
  l ∈ map key xs →
  JsObj.get (PlainObject.tally key xs) l = Some (Counted (occurrences key l xs)).
Proof.
  intros H Hl. rewrite (tally_counted key xs H), get_counted.
  pose proof (get_tally key xs l) as Hg.
  destruct (JsObj.get (JsObj.tally key xs) l) as [n|] eqn:Hn; simpl in Hg.
  - simpl. congruence.
  - pose proof (occurrences_pos key xs l Hl). lia.
Qed.

Lemma plain_tally_read {A} (key : A -> string) (xs : list A) (ks : list string) :
  Forall (fun x => PlainObject.inherited (key x) = false) xs →
  (∀ k, k ∈ ks → k ∈ map key xs) →
  omap (JsObj.get (PlainObject.tally key xs)) ks
  = map (fun k => Counted (occurrences key k xs)) ks.
Proof.
  intros H. induction ks as [|k ks IH]; intros Hks; [reflexivity|].
  change (omap ?f (k :: ks)) with (match f k with Some y => y :: omap f ks | None => omap f ks end).
  rewrite (plain_tally_get key xs k H) by (apply Hks; now left).
  cbn [map]. f_equal. apply IH. intros k' Hk'. apply Hks. now right.
Qed.

Lemma occurrences_along {A} (key : A -> string) (xs : list A) (ks : list string) :
  ks ≡ₚ first_seen (map key xs) →
  sum_list (map (fun k => occurrences key k xs) ks) = length xs.
Proof.
  intros Hp. rewrite <- (tally_counts_along key xs ks) by now rewrite keys_tally.
  f_equal. apply map_ext. intros k. symmetry. apply get_tally.
Qed.

(** The keys of [countsByDay] are day strings: they hold a [-] or a [+],
    which no array index and no property name of [Object.prototype] does,
    so the object is its list of own properties. *)
Lemma in_append (c : ascii) (s1 s2 : string) :
  In c (list_ascii_of_string (s1 ++ String c s2)%string).
Proof. induction s1 as [|a s1 IH]; cbn; [now left|now right]. Qed.

Lemma inherited_letters (k : string) :
  PlainObject.inherited k = true →
  ¬ In "-"%char (list_ascii_of_string k) ∧ ¬ In "+"%char (list_ascii_of_string k).
Proof.
  unfold PlainObject.inherited. intros H. apply existsb_exists in H as (name & Hin & Hk).
  apply String.eqb_eq in Hk. subst name.
  cbn [In] in Hin.
  repeat (destruct Hin as [<-|Hin];
          [cbn; split; intros H; repeat (destruct H as [H|H]; [discriminate H|]); exact H|]).
  destruct Hin.
Qed.

Lemma decimal_stops (c : ascii) (k : string) (acc : N) :
  ((48 <=? N_of_ascii c) && (N_of_ascii c <=? 57))%N = false →
  In c (list_ascii_of_string k) →
  PlainObject.decimal k acc = None.
Proof.
  intros Hc. revert acc. induction k as [|a k IH]; intros acc Hin; [destruct Hin|].
  cbn [PlainObject.decimal]. cbn [list_ascii_of_string In] in Hin.
  destruct ((48 <=? N_of_ascii a) && (N_of_ascii a <=? 57))%N eqn:Ha; [|reflexivity].
  destruct Hin as [->|Hin]; [congruence|]. now apply IH.
Qed.

Lemma index_of_stops (c : ascii) (k : string) :
  ((48 <=? N_of_ascii c) && (N_of_ascii c <=? 57))%N = false →
  In c (list_ascii_of_string k) →
  PlainObject.is_index k = false.
Proof.
  intros Hc Hin. unfold PlainObject.is_index, PlainObject.index_of.
  destruct k as [|a k]; [reflexivity|].
  destruct (Ascii.eqb a "0" && negb (String.eqb k "")); [reflexivity|].
  now rewrite (decimal_stops c _ _ Hc Hin).
Qed.

Lemma iso_day_sign (day : Z) :
  In "-"%char (list_ascii_of_string (iso_day day))
  ∨ In "+"%char (list_ascii_of_string (iso_day day)).
Proof.
  unfold iso_day. destruct (civil_of_days day) as [[y m] d].
  destruct ((0 <=? y) && (y <=? 9999)).
  - left. unfold digits, digit. simpl. auto 6.
  - destruct (y <? 0).
    + left. unfold digits, digit. simpl. auto.
    + right. unfold digits, digit. simpl. auto.
Qed.

Lemma day_of_plain (t : Z) (r : DiagnosisDoc) :
  PlainObject.inherited (day_of t r) = false ∧ PlainObject.is_index (day_of t r) = false.
Proof.
  assert (H : ∀ ms, PlainObject.inherited (Date_day ms) = false
                    ∧ PlainObject.is_index (Date_day ms) = false).
  { intros ms. unfold Date_day. destruct (iso_day_sign (ms / 86400000)) as [Hs|Hs].
    - split; [|now apply (index_of_stops "-")].
      destruct (PlainObject.inherited _) eqn:Hi; [|reflexivity].
      apply inherited_letters in Hi as [Hi _]. now apply Hi in Hs.
    - split; [|now apply (index_of_stops "+")].
      destruct (PlainObject.inherited _) eqn:Hi; [|reflexivity].
      apply inherited_letters in Hi as [_ Hi]. now apply Hi in Hs. }
  unfold day_of. destruct (createdAt r); apply H.
Qed.

(** [countsByDay], read as the plain object that it is. *)
Lemma countsByDay_plain (t : Z) (docs : list DiagnosisDoc) :
  PlainObject.tally (day_of t) docs = counted (countsByDay t docs)
  ∧ PlainObject.keys (PlainObject.tally (day_of t) docs) = JsObj.keys (countsByDay t docs).
Proof.
  assert (Hw : Forall (fun r => PlainObject.inherited (day_of t r) = false) docs).
  { apply Forall_forall. intros r _. apply day_of_plain. }
  split; [now apply tally_counted|].
  rewrite (plain_tally_keys (day_of t) docs Hw). unfold countsByDay. rewrite keys_tally.
  apply key_order_plain, Forall_forall. intros k Hk.
  apply (proj1 (first_seen_elem _ _)), list_elem_of_fmap in Hk as (r & -> & _).
  apply day_of_plain.
Qed.

(** ** AggregationEngine *)

(** C5, the failing input.  A window of one record whose [disease_top] is
    ["__proto__"]: [dist["__proto__"]] reads the prototype object and the
    assignment of a text to [__proto__] is ignored, so the distribution
    stays empty and its counts add up to 0, not to 1; [refreshStats] then
    shows a total of 1 over a chart without bars.  Under the label
    ["constructor"] the distribution holds a text instead of a count.  On
    every window whose labels name no property of [Object.prototype] each
    record counts once, under its [disease_top] label or under ["Unknown"]
    when it has no (or an empty) [disease_top]. *)
Theorem distribution_sum_inherited_label :
  let window := [legacy_record "__proto__"] in
  let s := with_diagnosis (fun _ => window) empty_state in
  let env := env_ok flu_response high_risk_response in
  length window = 1%nat
  ∧ dist window = []
  ∧ PlainObject.values (dist window) = []
  ∧ dom (run env refreshStats s) !! "totalRecords" = Some (Count 1)
  ∧ dom (run env refreshStats s) !! "diagChart" = Some (BarChart [] [])
  ∧ PlainObject.values (dist [legacy_record "constructor"]) = [Spoiled "constructor" 1]
  ∧ (∀ w,
       Forall (fun r => PlainObject.inherited (lab r) = false) w →
       PlainObject.keys (dist w) ≡ₚ first_seen (map lab w)
       ∧ PlainObject.values (dist w)
         = map (fun l => Counted (occurrences lab l w)) (PlainObject.keys (dist w))
       ∧ sum_list (map (fun l => occurrences lab l w) (PlainObject.keys (dist w))) = length w)
  ∧ (∀ r, (p ← prediction r; disease_top p) = None → lab r = "Unknown")
  ∧ (∀ r, (p ← prediction r; disease_top p) = Some "" → lab r = "Unknown").
Proof.
  cbv zeta. do 6 (split; [reflexivity|]).
  split; [|split; intros r Hr; unfold lab; rewrite Hr; reflexivity].
  intros w Hw. unfold dist.
  assert (Hk : PlainObject.keys (PlainObject.tally lab w) ≡ₚ first_seen (map lab w)).
  { rewrite (plain_tally_keys lab w Hw). apply key_order_perm. }
  split; [exact Hk|]. split.
  - unfold PlainObject.values. apply (plain_tally_read lab w _ Hw).
    intros k Hin. rewrite Hk in Hin. now apply (proj1 (first_seen_elem _ _)) in Hin.
  - apply (occurrences_along lab w). exact Hk.
Qed.

(** On a window without inherited labels the comparator of [dxLabels] is
    the difference of the numbers of occurrences. *)
Lemma dxLabels_plain (window : list DiagnosisDoc) :
  Forall (fun r => PlainObject.inherited (top r) = false) window →
  dxLabels window
  = take 8 (js_sort (fun a b => Z.of_nat (occurrences top b window)
                                - Z.of_nat (occurrences top a window))
              (PlainObject.key_order (first_seen (map top window)))).
Proof.
  intros Hw. unfold dxLabels. cbv zeta.
  unfold dxCount. rewrite (plain_tally_keys top window Hw).
  set (ks := PlainObject.key_order (first_seen (map top window))).
  assert (Hks : ∀ k, k ∈ ks → k ∈ map top window).
  { intros k Hk. unfold ks in Hk. rewrite key_order_perm in Hk.
    now apply (proj1 (first_seen_elem _ _)) in Hk. }
  f_equal. apply js_sort_ext. intros a b Ha Hb. unfold count_diff.
  rewrite !(plain_tally_get top window _ Hw) by now apply Hks. reflexivity.
Qed.

(** C7, as the code has it.  On a window whose labels name no property of
    [Object.prototype], the top diagnoses are the first 8 of the distinct
    labels of the window sorted by descending count; labels of equal count
    keep the order in which [Object.keys] lists them: the labels that are
    array indices in ascending numeric order, then the others in the order
    in which they first occur in the window. *)
Theorem dxLabels_order (window : list DiagnosisDoc) :
  Forall (fun r => PlainObject.inherited (top r) = false) window →
  (∃ L,
     dxLabels window = take 8 L
     ∧ L ≡ₚ first_seen (map top window)
     ∧ NoDup L
     ∧ StronglySorted
         (fun a b =>
            (occurrences top b window < occurrences top a window)%nat
            ∨ (occurrences top a window = occurrences top b window
               ∧ before (PlainObject.key_order (first_seen (map top window))) a b)) L)
  ∧ (Forall (fun r => PlainObject.is_index (top r) = false) window →
     PlainObject.key_order (first_seen (map top window)) = first_seen (map top window)).
Proof.
  intros Hw. split.
  - rewrite (dxLabels_plain window Hw).
    set (c := fun l => Z.of_nat (occurrences top l window)).
    set (ks := PlainObject.key_order (first_seen (map top window))).
    exists (js_sort (fun a b => c b - c a) ks).
    split; [reflexivity|].
    split; [rewrite js_sort_perm; apply key_order_perm|].
    split; [rewrite js_sort_perm; unfold ks; rewrite key_order_perm; apply first_seen_NoDup|].
    eapply StronglySorted_weaken; [|apply js_sort_count_order].
    intros a b. unfold count_order, c.
    intros [H|[H1 H2]]; [left; lia|right; split; [lia|exact H2]].
  - intros Hi. apply key_order_plain. apply Forall_forall. intros k Hk.
    apply (proj1 (first_seen_elem _ _)), list_elem_of_fmap in Hk as (r & -> & Hr).
    rewrite Forall_forall in Hi. now apply Hi.
Qed.

(** C7, witness: one ["Flu"] record followed by one ["Cold"] record. *)
Lemma dxLabels_order_witness :
  (∃ L,
     dxLabels [record (Some "Flu") "LowRisk" 0.5 None; record (Some "Cold") "LowRisk" 0.5 None]
       = take 8 L
     ∧ L ≡ₚ first_seen
              (map top [record (Some "Flu") "LowRisk" 0.5 None;
                        record (Some "Cold") "LowRisk" 0.5 None]))
  ∧ Forall (fun r => PlainObject.inherited (top r) = false)
      [record (Some "Flu") "LowRisk" 0.5 None; record (Some "Cold") "LowRisk" 0.5 None].
Proof.
  assert (Hw : Forall (fun r => PlainObject.inherited (top r) = false)
                 [record (Some "Flu") "LowRisk" 0.5 None;
                  record (Some "Cold") "LowRisk" 0.5 None])
    by (repeat constructor).
  split; [|exact Hw].
  destruct (dxLabels_order _ Hw) as [(L & H1 & H2 & _) _].
  exists L. split; assumption.
Defined.

(** C7: labels that are array indices come first.  On a window of ["Flu"],
    ["10"] and ["2"], one record each, the counts tie and the code answers
    ["2"; "10"; "Flu"]. *)
Example dxLabels_index_labels_first :
  dxLabels [record (Some "Flu") "LowRisk" 0.5 None; record (Some "10") "LowRisk" 0.5 None;
            record (Some "2") "LowRisk" 0.5 None]
  = ["2"; "10"; "Flu"].
Proof. reflexivity. Qed.

(** C7, counterexample. On a window with one ["Flu"] record followed by one
    ["Cold"] record the counts tie and the code answers ["Flu"; "Cold"], the
    order of first occurrence, where the ascending order of the labels is
    ["Cold"; "Flu"]. *)
Lemma dxLabels_tie_not_lexical :
  dxLabels [record (Some "Flu") "LowRisk" 0.5 None; record (Some "Cold") "LowRisk" 0.5 None]
    = ["Flu"; "Cold"]
  ∧ topK_spec 8 [record (Some "Flu") "LowRisk" 0.5 None; record (Some "Cold") "LowRisk" 0.5 None]
    = ["Cold"; "Flu"]
  ∧ dxLabels [record (Some "Flu") "LowRisk" 0.5 None; record (Some "Cold") "LowRisk" 0.5 None]
    ≠ topK_spec 8 [record (Some "Flu") "LowRisk" 0.5 None; record (Some "Cold") "LowRisk" 0.5 None].
Proof. repeat split; [reflexivity..|vm_compute; discriminate]. Qed.

(** ** IngestionGateway: defaults of the payload *)

(** C8, counterexample. On the blank form the numeric field [spo2] is 100,
    not 0, and the categorical fields are the empty values of their
    [<select>] elements, not a baseline category. *)
Lemma blank_form_spo2_not_zero :
  spo2 (payload_of blank_form) = 100%float
  ∧ spo2 (payload_of blank_form) ≠ 0%float
  ∧ Gender (payload_of blank_form) = ""
  ∧ BloodPressure (payload_of blank_form) = ""
  ∧ Cholesterol (payload_of blank_form) = "".
Proof.
  repeat split; try reflexivity.
  intros H. apply (f_equal (PrimFloat.ltb 0)) in H. vm_compute in H. discriminate.
Qed.

(** C8, as the code has it. A blank [Age], [temp], [hr] or [rr] is 0 and a
    blank [spo2] is 100; a filled numeric field is its number; a symptom is
    ["Yes"] when its box is checked and ["No"] otherwise; [Gender],
    [BloodPressure], [Cholesterol] and [PatientName] are the values of their
    elements, whatever they are. *)
Theorem payload_defaults (f : PredictForm) :
  (el_age f = Blank → Age (payload_of f) = 0%float)
  ∧ (el_temp f = Blank → temp (payload_of f) = 0%float)
  ∧ (el_hr f = Blank → hr (payload_of f) = 0%float)
  ∧ (el_rr f = Blank → rr (payload_of f) = 0%float)
  ∧ (el_spo2 f = Blank → spo2 (payload_of f) = 100%float)
  ∧ (∀ x, el_age f = Num x → Age (payload_of f) = x)
  ∧ (∀ x, el_temp f = Num x → temp (payload_of f) = x)
  ∧ (∀ x, el_hr f = Num x → hr (payload_of f) = x)
  ∧ (∀ x, el_rr f = Num x → rr (payload_of f) = x)
  ∧ (∀ x, el_spo2 f = Num x → spo2 (payload_of f) = x)
  ∧ Fever (payload_of f) = (if el_fever f then "Yes" else "No")
  ∧ Cough (payload_of f) = (if el_cough f then "Yes" else "No")
  ∧ Fatigue (payload_of f) = (if el_fatigue f then "Yes" else "No")
  ∧ DifficultyBreathing (payload_of f) = (if el_dbreath f then "Yes" else "No")
  ∧ Gender (payload_of f) = el_gender f
  ∧ BloodPressure (payload_of f) = el_bp_cat f
  ∧ Cholesterol (payload_of f) = el_chol f
  ∧ PatientName (payload_of f) = el_pname f.
Proof.
  unfold payload_of; cbn.
  repeat split; try (intros; match goal with H : _ = _ |- _ => rewrite H end; reflexivity).
  destruct (String.eqb_spec (el_pname f) ""); congruence.
Qed.

(** ** Frames: what a computation leaves related *)

Section Frame.
Context (Q : State -> State -> Prop) `{!PreOrder Q}.

Lemma keeps_ret {A} (a : A) : keeps Q (ret a).
Proof. intros env s. reflexivity. Qed.

Lemma keeps_throw {A} e : keeps Q (@throw A e).
Proof. intros env s. reflexivity. Qed.

Lemma keeps_ask {A} (f : Env -> A) : keeps Q (ask f).
Proof. intros env s. reflexivity. Qed.

Lemma keeps_gets {A} (f : State -> A) : keeps Q (gets f).
Proof. intros env s. reflexivity. Qed.

Lemma keeps_modify f : (∀ s, Q s (f s)) → keeps Q (modify f).
Proof. intros H env s. apply H. Qed.

Lemma keeps_bind {A B} (m : M A) (k : A -> M B) :
  keeps Q m → (∀ a, keeps Q (k a)) → keeps Q (bind m k).
Proof.
  intros Hm Hk env s. unfold bind. specialize (Hm env s).
  destruct (m env s) as [[a|e] s']; cbn [snd] in *; [|exact Hm].
  etransitivity; [exact Hm|apply Hk].
Qed.

Lemma keeps_try_catch {A} (m : M A) (h : Exn -> M A) :
  keeps Q m → (∀ e, keeps Q (h e)) → keeps Q (try_catch m h).
Proof.
  intros Hm Hh env s. unfold try_catch. specialize (Hm env s).
  destruct (m env s) as [[a|e] s']; cbn [snd] in *; [exact Hm|].
  etransitivity; [exact Hm|apply Hh].
Qed.

Lemma keeps_detached {A} (m : M A) : keeps Q m → keeps Q (detached m).
Proof. intros Hm env s. apply Hm. Qed.

Lemma keeps_run {A} (m : M A) env s : keeps Q m → Q s (run env m s).
Proof. intros Hm. apply Hm. Qed.
End Frame.

(** Splits a computation along its binds and case distinctions, leaving
    the state updates. *)
Ltac frame :=
  repeat lazymatch goal with
    | |- keeps _ (ret _) => apply keeps_ret
    | |- keeps _ (throw _) => apply keeps_throw
    | |- keeps _ (ask _) => apply keeps_ask
    | |- keeps _ (gets _) => apply keeps_gets
    | |- keeps _ (detached _) => apply keeps_detached
    | |- keeps _ (bind _ _) => apply keeps_bind
    | |- keeps _ (try_catch _ _) => apply keeps_try_catch
    | |- keeps _ (modify _) => apply keeps_modify
    | |- keeps _ (match ?x with _ => _ end) => destruct x
    | |- PreOrder _ => apply _
    | |- forall _, _ => intros ?
    end.

#[export] Instance same_stores_preorder : PreOrder same_stores.
Proof.
  split.
  - intros s. repeat split.
  - intros s1 s2 s3 (?&?&?) (?&?&?). repeat split; congruence.
Qed.

#[export] Instance adds_no_preorder e : PreOrder (adds_no e).
Proof.
  split.
  - intros s. exists []. split; [reflexivity|apply not_elem_of_nil].
  - intros s1 s2 s3 (t1 & H1 & Hn1) (t2 & H2 & Hn2). exists (t2 ++ t1).
    split; [rewrite H2, H1; apply app_assoc|].
    rewrite elem_of_app. tauto.
Qed.

Lemma adds_no_emit e e' s : e' ≠ e → adds_no e s (with_trace (cons e') s).
Proof.
  intros Hne. exists [e']. split; [reflexivity|].
  rewrite list_elem_of_singleton. congruence.
Qed.

Lemma adds_no_same_trace e s s' : trace s' = trace s → adds_no e s s'.
Proof. intros H. exists []. split; [exact H|apply not_elem_of_nil]. Qed.

Lemma adds_no_absent e s s' : adds_no e s s' → e ∉ trace s → e ∉ trace s'.
Proof. intros (t & -> & Ht) Hs. rewrite elem_of_app. tauto. Qed.

Ltac unfold_js :=
  unfold loadFeatureImportance, refreshStats, generateModelMetricsFromRecords,
    loadAnalyticsCharts, plotROC, renderConfMatrix, saveChat, auth_currentUser,
    appendMessage, speak,
    postJSON, fetched, query_diagnosis, get_user_doc, add_diagnosis, add_chat_history,
    emit, set_el.

Lemma refreshStats_stores : keeps same_stores refreshStats.
Proof.
  unfold_js. frame; repeat split.
Qed.

Lemma loadFeatureImportance_stores : keeps same_stores loadFeatureImportance.
Proof.
  unfold_js. frame; repeat split.
Qed.

Lemma generateModelMetricsFromRecords_stores n :
  keeps same_stores (generateModelMetricsFromRecords n).
Proof.
  unfold_js. frame; repeat split.
Qed.

Lemma loadAnalyticsCharts_stores : keeps same_stores loadAnalyticsCharts.
Proof.
  unfold_js. frame; repeat split.
Qed.

Lemma showAnalyticsIfAdmin_stores : keeps same_stores showAnalyticsIfAdmin.
Proof.
  unfold showAnalyticsIfAdmin. unfold_js. frame; repeat split.
Qed.

(** ** MetricsComputer *)

Lemma metrics_few (env : Env) (s : State) (limit : nat) :
  firestore_up env Cdiagnosis = true →
  (length (y_true (labeled (take limit (db_diagnosis s)))) ≤ 10)%nat →
  generateModelMetricsFromRecords limit env s =
    (Return tt,
     with_trace
       (fun t => ConsoleWarn "Not enough labeled records to compute ROC/confusion (need >10)"
                   :: Query Cdiagnosis limit :: t) s).
Proof.
  intros Hup Hn.
  unfold generateModelMetricsFromRecords, query_diagnosis, emit, bind, ask, gets, modify.
  cbn [fst snd]. rewrite Hup. cbn [db_diagnosis with_trace].
  apply Nat.ltb_ge in Hn. rewrite Hn. reflexivity.
Qed.

Lemma metrics_many (env : Env) (s : State) (limit : nat) :
  firestore_up env Cdiagnosis = true →
  (10 < length (y_true (labeled (take limit (db_diagnosis s)))))%nat →
  ∃ t, trace (run env (generateModelMetricsFromRecords limit) s) =
       t ++ POST "/roc-data" :: Query Cdiagnosis limit :: trace s.
Proof.
  intros Hup Hn.
  unfold run, generateModelMetricsFromRecords, query_diagnosis, postJSON, fetched,
    plotROC, renderConfMatrix, set_el, emit, bind, ask, gets, modify, ret, throw.
  cbn [fst snd]. rewrite Hup. cbn [db_diagnosis with_trace].
  apply Nat.ltb_lt in Hn. rewrite Hn.
  destruct (roc_data env _ _) as [roc|]; [|now exists []].
  destruct (confusion_matrix env _ _) as [cm|]; [|now exists [POST "/confusion-matrix"]].
  destruct cm as [|r0 [|r1 cm]]; now exists [POST "/confusion-matrix"].
Qed.

(** C4. With the window read, [generateModelMetricsFromRecords] computes
    metrics only from strictly more than 10 labeled pairs: with 10 or fewer
    it returns normally after a console warning, posts nothing and leaves
    the document (so the ROC chart and the confusion matrix) as it was; with
    more than 10 its next step is the request to [/roc-data]. *)
Theorem metrics_need_more_than_10 (env : Env) (s : State) (limit : nat) :
  firestore_up env Cdiagnosis = true →
  let pairs := y_true (labeled (take limit (db_diagnosis s))) in
  ((length pairs ≤ 10)%nat →
     generateModelMetricsFromRecords limit env s =
       (Return tt,
        with_trace
          (fun t => ConsoleWarn "Not enough labeled records to compute ROC/confusion (need >10)"
                      :: Query Cdiagnosis limit :: t) s))
  ∧ ((10 < length pairs)%nat →
     ∃ t, trace (run env (generateModelMetricsFromRecords limit) s) =
          t ++ POST "/roc-data" :: Query Cdiagnosis limit :: trace s).
Proof.
  intros Hup pairs. split; [now apply metrics_few|now apply metrics_many].
Qed.

(** C4, witness: a store of 3 labeled records. *)
Lemma metrics_need_more_than_10_witness :
  let s := state_with 3 in
  let env := env_role "doctor" in
  generateModelMetricsFromRecords 200 env s =
    (Return tt,
     with_trace
       (fun t => ConsoleWarn "Not enough labeled records to compute ROC/confusion (need >10)"
                   :: Query Cdiagnosis 200 :: t) s).
Proof.
  intros s env.
  apply (metrics_need_more_than_10 env s 200); [reflexivity|vm_compute; lia].
Defined.

(** ** Chat history *)

Lemma chat_lines_append d sender text :
  chat_lines (<["chat-box" := ChatLines (chat_lines d ++ [(sender, text)])]> d) =
  chat_lines d ++ [(sender, text)].
Proof. unfold chat_lines at 1. rewrite lookup_insert_eq. reflexivity. Qed.

(** C10, the failing input.  [saveChat] reads the identifier [auth], which
    has no binding, so it rejects with a [ReferenceError] before it looks at
    the user: with nobody signed in, as for any user, it raises an error
    where the test [if (!user) return] was to return.  It writes nothing.
    [sendMessage] does not await [saveChat], so the message still shows in
    the chat box, and [chat_history] is never written. *)
Theorem saveChat_rejects_on_auth :
  currentUser empty_state = None
  ∧ saveChat "You" "hello" (env_role "doctor") empty_state
    = (Throw (ReferenceError "auth"), empty_state)
  ∧ chat_lines (dom (run (env_role "doctor") (sendMessage "hello") empty_state))
    = [("You", "hello"); ("AI", "ok")]
  ∧ (∀ env s sender text, saveChat sender text env s = (Throw (ReferenceError "auth"), s))
  ∧ (∀ env s message,
       db_chat_history (run env (sendMessage message) s) = db_chat_history s
       ∧ adds_no (Add Cchat_history) s (run env (sendMessage message) s)).
Proof.
  split; [reflexivity|]. split; [reflexivity|].
  split; [vm_compute; reflexivity|].
  split; [reflexivity|].
  intros env s message. unfold run, sendMessage.
  destruct (String.eqb message ""); [split; reflexivity|].
  unfold appendMessage, speak, detached, saveChat, auth_currentUser, fetched, emit, bind,
    gets, modify, ask, ret, throw.
  cbn [fst snd String.eqb Ascii.eqb Bool.eqb with_dom with_trace currentUser dom
       db_chat_history trace].
  destruct (chat env message) as [reply|];
    cbn [fst snd with_dom with_trace currentUser dom db_chat_history trace];
    (split; [reflexivity|]).
  - exists [Speak reply; POST "/chat"]. split; [reflexivity|].
    rewrite !not_elem_of_cons. repeat split; try discriminate. apply not_elem_of_nil.
  - exists [POST "/chat"]. split; [reflexivity|].
    rewrite !not_elem_of_cons. repeat split; try discriminate. apply not_elem_of_nil.
Qed.

(** ** IngestionGateway: the submit handler *)

(** A prediction call whose promise rejects aborts the handler before the
    write: the diagnosis collection and the document are as before, and no
    [add] is requested. *)
Lemma submit_rejected_writes_nothing (env : Env) (s : State) (form : PredictForm) :
  predict_disease env (FormBody (payload_of form)) = Rejected
  ∨ predict_outcome env (FormBody (payload_of form)) = Rejected →
  ∃ url s',
    predictForm_submit form env s = (Throw (FetchFailed url), s')
    ∧ db_diagnosis s' = db_diagnosis s
    ∧ dom s' = dom s
    ∧ adds_no (Add Cdiagnosis) s s'.
Proof.
  intros H.
  unfold predictForm_submit, postJSON, fetched, emit, bind, ask, modify, ret, throw.
  cbn [fst snd].
  destruct (predict_disease env (FormBody (payload_of form))) as [d|] eqn:Hd.
  - destruct H as [H|H]; [discriminate|]. cbn [predict_outcome]. rewrite H.
    eexists _, _. split; [reflexivity|]. repeat split.
    etransitivity; apply adds_no_emit; discriminate.
  - eexists _, _. split; [reflexivity|]. repeat split.
    apply adds_no_emit; discriminate.
Qed.

(** Whatever the two prediction calls resolve to, the handler stores it:
    the answers are not inspected before the write. *)
Lemma submit_persists_any_answer (env : Env) (s : State) (form : PredictForm)
    (d : DiseaseRes) (o : OutcomeRes) :
  predict_disease env (FormBody (payload_of form)) = Resolved d →
  predict_outcome env (FormBody (payload_of form)) = Resolved o →
  firestore_up env Cdiagnosis = true →
  fst (predictForm_submit form env s) = Return tt
  ∧ db_diagnosis (run env (predictForm_submit form) s) =
      {| patient_name := Some (PatientName (payload_of form));
         age := Some (Age (payload_of form));
         features := Some (payload_of form);
         prediction := Some {| diseaseRes := Some d; outcomeRes := Some o;
                               disease_top := None |};
         createdAt := Some (serverTimestamp env);
         createdBy := user_uid <$> currentUser s |} :: db_diagnosis s.
Proof.
  intros Hd Ho Hup.
  unfold run, predictForm_submit, refreshStats, loadFeatureImportance, postJSON, fetched,
    add_diagnosis, query_diagnosis, set_el, emit, try_catch, bind, ask, gets, modify, ret,
    throw.
  cbn [fst snd]. rewrite Hd, Ho, Hup. cbn [fst snd].
  destruct (log_metrics env); cbn [fst snd]; rewrite ?Hup; cbn [fst snd];
    destruct (feature_importance env); split; reflexivity.
Qed.

(** The symptom checker, on the same kind of answer, stops: an answer with
    an [error] is shown as an error and nothing else is done with it. *)
Lemma runSymptomCheck_stops_on_error (env : Env) (s : State) (form : PredictForm)
    (x : string) (xs : list string) (d : DiseaseRes) (msg : string) :
  predict_disease env (SymptomBody (symptom_payload (x :: xs) form)) = Resolved d →
  error d = Some msg →
  msg ≠ "" →
  runSymptomCheck (x :: xs) form env s =
    (Return tt,
     with_dom <["symptomResult" := Text ("Error: " ++ msg)]>
       (with_trace (cons (POST "/predict-disease")) s)).
Proof.
  intros Hd He Hm.
  unfold runSymptomCheck, fetched, set_el, emit, try_catch, bind, ask, modify, ret.
  cbn [fst snd]. rewrite Hd, He. cbn [truthy default].
  destruct (String.eqb_spec msg "") as [|_]; [contradiction|]. reflexivity.
Qed.

(** C1, the failing input. The disease call answers with the error body
    [{error: "model not loaded"}]; [postJSON] does not look at the status of
    the response, so the handler goes on, returns normally and stores a record
    whose [diseaseRes] is the error body. *)
Theorem submit_persists_error_response :
  let env := env_ok error_response high_risk_response in
  let r := predictForm_submit form_45_fever env empty_state in
  fst r = Return tt
  ∧ map prediction (db_diagnosis (snd r)) =
      [Some {| diseaseRes := Some error_response;
               outcomeRes := Some high_risk_response;
               disease_top := None |}]
  ∧ Add Cdiagnosis ∈ trace (snd r).
Proof.
  cbv zeta. split; [reflexivity|]. split; [reflexivity|].
  vm_compute. do 3 right. left.
Qed.

(** C3, the failing input. After the submission of [Age = 45], [Fever = Yes]
    answered with top-3 [Flu] and [HighRisk], the stored record has the risk
    ["HighRisk"], and the refresh that the handler runs counts the record
    under ["Unknown"]: [refreshStats] reads [prediction.disease_top], which
    the handler does not write, so the distribution has no ["Flu"]. *)
Theorem submit_flu_is_counted_as_Unknown :
  let env := env_ok flu_response high_risk_response in
  let s' := run env (predictForm_submit form_45_fever) empty_state in
  map (fun r => p ← prediction r; o ← outcomeRes p; risk o) (db_diagnosis s') = [Some "HighRisk"]
  ∧ map top3_disease (db_diagnosis s') = [Some "Flu"]
  ∧ dist (db_diagnosis s') = [("Unknown", Counted 1)]
  ∧ JsObj.get (dist (db_diagnosis s')) "Flu" = None
  ∧ dom s' !! "diagChart" = Some (BarChart ["Unknown"] [Counted 1])
  ∧ dxCount (db_diagnosis s') = [("Flu", Counted 1)].
Proof. cbv zeta. repeat split; vm_compute; reflexivity. Qed.

(** ** AggregationEngine: purity *)

Lemma tally_ext {A} (f g : A -> string) (xs : list A) :
  Forall (fun x => f x = g x) xs → JsObj.tally f xs = JsObj.tally g xs.
Proof.
  unfold JsObj.tally. generalize (@JsObj.empty nat).
  induction xs as [|x xs IH]; intros o Hfg; [reflexivity|].
  apply Forall_cons in Hfg as [Hx Hxs]. cbn [fold_left]. rewrite Hx. now apply IH.
Qed.

Lemma plain_tally_ext {A} (f g : A -> string) (xs : list A) :
  Forall (fun x => f x = g x) xs → PlainObject.tally f xs = PlainObject.tally g xs.
Proof.
  unfold PlainObject.tally. generalize (@JsObj.empty Tally).
  induction xs as [|x xs IH]; intros o Hfg; [reflexivity|].
  apply Forall_cons in Hfg as [Hx Hxs]. cbn [fold_left]. rewrite Hx. now apply IH.
Qed.

Lemma countsByDay_clock (t1 t2 : Z) (window : list DiagnosisDoc) :
  Forall (fun r => is_Some (createdAt r)) window →
  countsByDay t1 window = countsByDay t2 window.
Proof.
  intros H. apply tally_ext. eapply Forall_impl; [exact H|].
  intros r [ts Hts]. unfold day_of. rewrite Hts. reflexivity.
Qed.

(** The distribution and the top diagnoses do not read the clock at all. *)
Lemma aggregate_counts_ignore_clock (t1 t2 : Z) (window : list DiagnosisDoc) :
  distribution (aggregate t1 window) = distribution (aggregate t2 window)
  ∧ topK (aggregate t1 window) = topK (aggregate t2 window).
Proof. split; reflexivity. Qed.

Lemma refreshStats_run (env : Env) (s : State) :
  run env refreshStats s =
  if firestore_up env Cdiagnosis then
    let docs := take 200 (db_diagnosis s) in
    with_dom
      (fun d =>
         <["recordsList" := Records (map (fun r => (or_str (patient_name r) "Unknown",
                                                    disease_top <$> prediction r))
                                         (take 30 docs))]>
         (<["uniqueDx" := Count (length (PlainObject.keys (dist docs)))]>
         (<["diagChart" := BarChart (PlainObject.keys (dist docs))
                             (PlainObject.values (dist docs))]>
         (<["totalRecords" := Count (length docs)]> d))))
      (with_trace (cons (Query Cdiagnosis 200)) s)
  else
    with_trace (fun t => ConsoleError "refreshStats error" :: Query Cdiagnosis 200 :: t) s.
Proof.
  unfold run, refreshStats, query_diagnosis, set_el, emit, try_catch, bind, ask, gets,
    modify, ret, throw.
  cbn [fst snd]. destruct (firestore_up env Cdiagnosis); reflexivity.
Qed.

Lemma loadAnalyticsCharts_run (env : Env) (s : State) :
  run env loadAnalyticsCharts s =
  if firestore_up env Cdiagnosis then
    let docs := take 1000 (db_diagnosis s) in
    with_dom
      (fun d =>
         <["topDxChart" := BarChart (dxLabels docs) (dxValues docs)]>
         (<["recordsTimeChart" := Chart (days (now env) docs) (counts (now env) docs)]>
         (<["avgRisk" := Percent (avgRisk docs)]> d)))
      (with_trace (cons (Query Cdiagnosis 1000)) s)
  else
    with_trace (cons (Query Cdiagnosis 1000)) s.
Proof.
  unfold run, loadAnalyticsCharts, query_diagnosis, set_el, emit, bind, ask, gets,
    modify, ret, throw.
  cbn [fst snd]. destruct (firestore_up env Cdiagnosis); reflexivity.
Qed.

(** Writing the same elements twice shows what writing them once shows. *)
Ltac same_inserts :=
  apply map_eq; intros k; rewrite !lookup_insert; repeat case_decide; reflexivity.

Lemma refreshStats_idempotent (env : Env) (s : State) :
  dom (run env refreshStats (run env refreshStats s)) = dom (run env refreshStats s).
Proof.
  rewrite (refreshStats_run env (run env refreshStats s)), !(refreshStats_run env s).
  destruct (firestore_up env Cdiagnosis); [|reflexivity].
  cbn [dom with_dom with_trace db_diagnosis]. same_inserts.
Qed.

Lemma loadAnalyticsCharts_idempotent (env : Env) (s : State) :
  dom (run env loadAnalyticsCharts (run env loadAnalyticsCharts s)) =
  dom (run env loadAnalyticsCharts s).
Proof.
  rewrite (loadAnalyticsCharts_run env (run env loadAnalyticsCharts s)),
    !(loadAnalyticsCharts_run env s).
  destruct (firestore_up env Cdiagnosis); [|reflexivity].
  cbn [dom with_dom with_trace db_diagnosis]. same_inserts.
Qed.

(** C6, counterexample. A record without [createdAt] is counted under the
    day of the call: the same one-record window gives the time series of
    1970-01-01 at time 0 and the one of 1970-01-02 a day later. *)
Lemma aggregate_reads_the_clock :
  timeSeries (aggregate 0 [record (Some "Flu") "LowRisk" 0.5 None]) = (["1970-01-01"], [1%nat])
  ∧ timeSeries (aggregate 86400000 [record (Some "Flu") "LowRisk" 0.5 None])
    = (["1970-01-02"], [1%nat])
  ∧ aggregate 0 [record (Some "Flu") "LowRisk" 0.5 None]
    ≠ aggregate 86400000 [record (Some "Flu") "LowRisk" 0.5 None].
Proof.
  split; [reflexivity|]. split; [reflexivity|].
  intros H. apply (f_equal timeSeries) in H. vm_compute in H. discriminate.
Qed.

(** C6, as the code has it. On a window whose records all have their
    [createdAt], the aggregates are the same at any two times of call; the
    analytics code leaves the stored records as they were, and running it
    again shows what the first run showed. *)
Theorem aggregate_pure (window : list DiagnosisDoc) (t1 t2 : Z) (env : Env) (s : State) :
  Forall (fun r => is_Some (createdAt r)) window →
  aggregate t1 window = aggregate t2 window
  ∧ db_diagnosis (run env refreshStats s) = db_diagnosis s
  ∧ db_diagnosis (run env loadAnalyticsCharts s) = db_diagnosis s
  ∧ db_diagnosis (run env (generateModelMetricsFromRecords 200) s) = db_diagnosis s
  ∧ dom (run env refreshStats (run env refreshStats s)) = dom (run env refreshStats s)
  ∧ dom (run env loadAnalyticsCharts (run env loadAnalyticsCharts s))
    = dom (run env loadAnalyticsCharts s).
Proof.
  intros Hw. split.
  - unfold aggregate, counts, days. rewrite (countsByDay_clock t1 t2 window Hw). reflexivity.
  - split; [apply (refreshStats_stores env s)|].
    split; [apply (loadAnalyticsCharts_stores env s)|].
    split; [apply (generateModelMetricsFromRecords_stores 200 env s)|].
    split; [apply refreshStats_idempotent|apply loadAnalyticsCharts_idempotent].
Qed.

(** C6, witness: a window of two dated records. *)
Lemma aggregate_pure_witness :
  aggregate 0 [record (Some "Flu") "LowRisk" 0.5 (Some {| toDate := 0 |});
               record (Some "Cold") "LowRisk" 0.5 (Some {| toDate := 86400000 |})]
  = aggregate 86400000 [record (Some "Flu") "LowRisk" 0.5 (Some {| toDate := 0 |});
                        record (Some "Cold") "LowRisk" 0.5 (Some {| toDate := 86400000 |})].
Proof.
  apply (aggregate_pure _ 0 86400000 (env_role "doctor") empty_state).
  repeat constructor; eexists; reflexivity.
Defined.

(** ** RoleGate *)

Lemma is_admin_role_spec (r : option string) : is_admin_role r = true ↔ r = Some "admin".
Proof.
  destruct r as [r|]; cbn [is_admin_role]; [|split; discriminate].
  destruct (String.eqb_spec r "admin"); split; congruence.
Qed.

Lemma showAnalyticsIfAdmin_run (env : Env) (s : State) :
  run env showAnalyticsIfAdmin s =
  match currentUser s with
  | None => s
  | Some u =>
      let s1 := with_trace (cons (DocGet Cusers (user_uid u))) s in
      let s2 := if firestore_up env Cusers then s1
                else with_trace (cons (ConsoleWarn "Failed to read user role")) s1 in
      if is_admin_role (resolved_role env (user_uid u))
      then run env loadAnalyticsCharts (with_dom <["analyticsCard" := Display true]> s2)
      else with_dom <["analyticsCard" := Display false]> s2
  end.
Proof.
  unfold run, showAnalyticsIfAdmin, resolved_role, get_user_doc, set_el, emit, try_catch,
    bind, ask, gets, modify, ret, throw.
  cbn [fst snd]. destruct (currentUser s) as [u|]; [|reflexivity].
  cbv zeta. destruct (firestore_up env Cusers); cbn [fst snd is_admin_role].
  - destruct (is_admin_role _); [|reflexivity].
    destruct (loadAnalyticsCharts env _); reflexivity.
  - reflexivity.
Qed.

Ltac adds_no_leaf :=
  lazymatch goal with
  | |- adds_no _ _ (with_trace (cons _) _) => apply adds_no_emit; discriminate
  | |- adds_no _ _ _ => apply adds_no_same_trace; reflexivity
  end.

Lemma refreshStats_no_1000 : keeps (adds_no (Query Cdiagnosis 1000)) refreshStats.
Proof. unfold_js. frame; adds_no_leaf. Qed.

Lemma loadFeatureImportance_no_1000 : keeps (adds_no (Query Cdiagnosis 1000)) loadFeatureImportance.
Proof. unfold_js. frame; adds_no_leaf. Qed.

Lemma metrics_200_no_1000 :
  keeps (adds_no (Query Cdiagnosis 1000)) (generateModelMetricsFromRecords 200).
Proof. unfold_js. frame; adds_no_leaf. Qed.

Lemma onAuth_load_no_1000 user : keeps (adds_no (Query Cdiagnosis 1000)) (onAuth_load user).
Proof.
  unfold onAuth_load. destruct user as [u|].
  - apply keeps_bind; [apply _|unfold_js; frame; adds_no_leaf|intros _].
    apply keeps_bind; [apply _|apply refreshStats_no_1000|intros _].
    apply keeps_bind; [apply _|apply loadFeatureImportance_no_1000|intros _].
    apply metrics_200_no_1000.
  - unfold_js. frame; adds_no_leaf.
Qed.

Lemma predictForm_submit_no_1000 form :
  keeps (adds_no (Query Cdiagnosis 1000)) (predictForm_submit form).
Proof.
  unfold predictForm_submit.
  repeat (apply keeps_bind; [apply _| |intros ?]);
    try apply refreshStats_no_1000; try apply loadFeatureImportance_no_1000;
    unfold_js; frame; adds_no_leaf.
Qed.

Lemma runSymptomCheck_no_1000 selected form :
  keeps (adds_no (Query Cdiagnosis 1000)) (runSymptomCheck selected form).
Proof. unfold runSymptomCheck. unfold_js. frame; adds_no_leaf. Qed.

Lemma sendMessage_no_1000 message :
  keeps (adds_no (Query Cdiagnosis 1000)) (sendMessage message).
Proof. unfold sendMessage. unfold_js. frame; adds_no_leaf. Qed.

(** Without the admin role, the admin check adds no request for the
    1000-record window. *)
Lemma showAnalyticsIfAdmin_no_1000 (env : Env) (s : State) :
  (∀ id, resolved_role env id ≠ Some "admin") →
  adds_no (Query Cdiagnosis 1000) s (run env showAnalyticsIfAdmin s).
Proof.
  intros Hrole. rewrite showAnalyticsIfAdmin_run.
  destruct (currentUser s) as [u|]; [|reflexivity].
  cbv zeta.
  destruct (is_admin_role (resolved_role env (user_uid u))) eqn:Hr.
  - apply is_admin_role_spec in Hr. now apply Hrole in Hr.
  - destruct (firestore_up env Cusers).
    + apply (adds_no_emit _ (DocGet Cusers (user_uid u))). discriminate.
    + etransitivity; apply adds_no_emit; discriminate.
Qed.

Lemma observe_no_1000 (env : Env) (l : Listener) (user : option User) (s : State) :
  (∀ id, resolved_role env id ≠ Some "admin") →
  adds_no (Query Cdiagnosis 1000) s (run env (observe l user) s).
Proof.
  intros Hrole. destruct l, user as [u|]; cbn [observe];
    try apply (onAuth_load_no_1000 _ env s);
    try reflexivity;
    now apply showAnalyticsIfAdmin_no_1000.
Qed.

Lemma onAuthStateChanged_no_1000 (env : Env) (l : Listener) (p : Page) :
  (∀ id, resolved_role env id ≠ Some "admin") →
  adds_no (Query Cdiagnosis 1000) (state p) (state (onAuthStateChanged env l p)).
Proof.
  intros Hrole. unfold onAuthStateChanged. cbn [state].
  destruct (auth_ready p); [now apply observe_no_1000|reflexivity].
Qed.

Lemma step_no_1000 (env : Env) (ev : Event) (p : Page) :
  (∀ id, resolved_role env id ≠ Some "admin") →
  adds_no (Query Cdiagnosis 1000) (state p) (state (step env ev p)).
Proof.
  intros Hrole. destruct ev as [|user| |form|selected form|message]; cbn [step].
  - now apply onAuthStateChanged_no_1000.
  - cbn [state].
    assert (Hfold : ∀ ls s0, adds_no (Query Cdiagnosis 1000) s0
              (fold_left (fun s l => run env (observe l user) s) ls s0)).
    { induction ls as [|l ls IH]; intros s0; cbn [fold_left]; [reflexivity|].
      etransitivity; [apply (observe_no_1000 env l user s0 Hrole)|apply IH]. }
    etransitivity; [|apply Hfold]. now apply adds_no_same_trace.
  - induction (intervals p) as [|n IH]; cbn [Nat.iter]; [reflexivity|].
    etransitivity; [exact IH|now apply onAuthStateChanged_no_1000].
  - apply (predictForm_submit_no_1000 form env (state p)).
  - apply (runSymptomCheck_no_1000 selected form env (state p)).
  - apply (sendMessage_no_1000 message env (state p)).
Qed.

(** In a history in which no user resolves to the admin role, the
    1000-record window is never requested. *)
Lemma steps_no_1000 (evs : list (Env * Event)) (p : Page) :
  Forall (fun e => ∀ id, resolved_role (fst e) id ≠ Some "admin") evs →
  adds_no (Query Cdiagnosis 1000) (state p) (state (steps evs p)).
Proof.
  unfold steps. revert p. induction evs as [|[env ev] evs IH]; intros p Hevs; cbn [fold_left].
  - reflexivity.
  - apply Forall_cons in Hevs as [Hev Hevs]. cbn [fst snd] in *.
    etransitivity; [now apply step_no_1000|now apply IH].
Qed.

Lemma onAuth_load_posts_roc (env : Env) (s : State) (u : User) :
  firestore_up env Cdiagnosis = true →
  (10 < length (y_true (labeled (take 200 (db_diagnosis s)))))%nat →
  POST "/roc-data" ∈ trace (run env (onAuth_load (Some u)) s).
Proof.
  intros Hup Hn. unfold run, onAuth_load.
  unfold bind at 1. unfold set_el at 1, modify at 1. cbn [fst snd].
  unfold bind at 1.
  pose proof (refreshStats_stores env (with_dom <["userName" := Text (or_str (user_displayName u) (user_email u))]> s)) as (Hdb & _ & _).
  pose proof (refreshStats_run env (with_dom <["userName" := Text (or_str (user_displayName u) (user_email u))]> s)) as Hrun.
  unfold run in Hrun.
  destruct (refreshStats env _) as [[[]|e] s1] eqn:Hrs; cbn [snd] in *.
  2:{ rewrite Hup in Hrun. exfalso. revert Hrs.
      unfold refreshStats, query_diagnosis, set_el, emit, try_catch, bind, ask, gets,
        modify, ret, throw. cbn [fst snd]. rewrite Hup. discriminate. }
  unfold bind at 1.
  pose proof (loadFeatureImportance_stores env s1) as (Hdb' & _ & _).
  destruct (loadFeatureImportance env s1) as [[[]|e] s2] eqn:Hlf; cbn [snd] in *.
  2:{ exfalso. revert Hlf.
      unfold loadFeatureImportance, fetched, set_el, emit, try_catch, bind, ask, modify,
        ret, throw. cbn [fst snd].
      destruct (feature_importance env); discriminate. }
  pose proof (metrics_many env s2 200 Hup) as Hgt.
  cbn [with_dom db_diagnosis] in Hdb. rewrite Hdb', Hdb in Hgt.
  destruct (Hgt Hn) as [t Ht]. unfold run in Ht. rewrite Ht.
  rewrite elem_of_app. right. left.
Qed.

(** C2, counterexample. A user with the role [doctor] signs in on a store of
    11 labeled records: the page requests [/roc-data] and
    [/confusion-matrix] and draws the ROC chart, without any request for the
    1000-record window. *)
Lemma doctor_triggers_metrics :
  resolved_role (env_role "doctor") "u1" = Some "doctor"
  ∧ trace (state (steps [(env_role "doctor", WindowLoad);
                         (env_role "doctor", AuthStateChanged (Some dr_osei))]
                        (script_start (state_with 11))))
    = [POST "/confusion-matrix"; POST "/roc-data"; Query Cdiagnosis 200;
       GET "/feature-importance"; Query Cdiagnosis 200; DocGet Cusers "u1"]
  ∧ dom (state (steps [(env_role "doctor", WindowLoad);
                       (env_role "doctor", AuthStateChanged (Some dr_osei))]
                      (script_start (state_with 11)))) !! "rocCurve"
    = Some (RocChart {| fpr := []; tpr := []; auc := None |}).
Proof. repeat split; vm_compute; reflexivity. Qed.

(** C2, as the code has it. The admin views and the 1000-record window are
    for the admin role only: for a signed-in user whose role does not resolve
    to [admin] (no profile, a failed lookup, or another role such as [doctor])
    the admin check hides the analytics card, writes nothing else and
    requests no window, and a history without admin never requests the
    1000-record window; for the role [admin] the check shows the card and
    requests the 1000-record window.  The ROC and confusion metrics are not
    gated: the sign-in observer requests them for any signed-in user whose
    200-record window has more than 10 labeled pairs. *)
Theorem admin_gate (env : Env) (s : State) (u : User) :
  currentUser s = Some u →
  (firestore_up env Cusers = false → resolved_role env (user_uid u) = None)
  ∧ (users env !! user_uid u = None → resolved_role env (user_uid u) = None)
  ∧ (resolved_role env (user_uid u) ≠ Some "admin" →
     dom (run env showAnalyticsIfAdmin s) = <["analyticsCard" := Display false]> (dom s)
     ∧ adds_no (Query Cdiagnosis 1000) s (run env showAnalyticsIfAdmin s))
  ∧ (∀ evs,
       Forall (fun e => ∀ id, resolved_role (fst e) id ≠ Some "admin") evs →
       adds_no (Query Cdiagnosis 1000) s (state (steps evs (script_start s))))
  ∧ (resolved_role env (user_uid u) = Some "admin" →
     trace (run env showAnalyticsIfAdmin s)
       = Query Cdiagnosis 1000 :: DocGet Cusers (user_uid u) :: trace s
     ∧ dom (run env showAnalyticsIfAdmin s) !! "analyticsCard" = Some (Display true))
  ∧ (firestore_up env Cdiagnosis = true →
     (10 < length (y_true (labeled (take 200 (db_diagnosis s)))))%nat →
     POST "/roc-data" ∈ trace (run env (onAuth_load (Some u)) s)).
Proof.
  intros Hu. unfold resolved_role at 1 2.
  split; [intros ->; reflexivity|].
  split; [intros ->; now destruct (firestore_up env Cusers)|].
  split; [|split; [|split]].
  - intros Hrole. rewrite showAnalyticsIfAdmin_run, Hu. cbv zeta.
    destruct (is_admin_role (resolved_role env (user_uid u))) eqn:Hr.
    { apply is_admin_role_spec in Hr. contradiction. }
    split.
    + destruct (firestore_up env Cusers); reflexivity.
    + destruct (firestore_up env Cusers).
      * apply (adds_no_emit _ (DocGet Cusers (user_uid u))). discriminate.
      * etransitivity; apply adds_no_emit; discriminate.
  - intros evs Hevs. apply (steps_no_1000 evs (script_start s) Hevs).
  - intros Hrole. rewrite showAnalyticsIfAdmin_run, Hu. cbv zeta.
    assert (Hup : firestore_up env Cusers = true).
    { unfold resolved_role in Hrole. destruct (firestore_up env Cusers); [reflexivity|discriminate]. }
    rewrite Hrole, Hup. cbn [is_admin_role String.eqb Ascii.eqb Bool.eqb].
    rewrite loadAnalyticsCharts_run.
    destruct (firestore_up env Cdiagnosis); cbv zeta; cbn [trace dom with_dom with_trace];
      (split; [reflexivity|]).
    + rewrite !lookup_insert_ne by discriminate. apply lookup_insert_eq.
    + apply lookup_insert_eq.
  - apply onAuth_load_posts_roc.
Qed.

(** C2, witness: [dr_osei] with the role [doctor], signed in. *)
Lemma admin_gate_witness :
  dom (run (env_role "doctor") showAnalyticsIfAdmin
         (with_currentUser (Some dr_osei) (state_with 11)))
  = <["analyticsCard" := Display false]> (dom (with_currentUser (Some dr_osei) (state_with 11))).
Proof.
  apply (admin_gate (env_role "doctor") (with_currentUser (Some dr_osei) (state_with 11)) dr_osei);
    [reflexivity|vm_compute; discriminate].
Defined.

(** ** RefreshScheduler: timers and listeners *)

Lemma count_event_cons P env ev evs :
  count_event P ((env, ev) :: evs) = ((if P ev then 1 else 0) + count_event P evs)%nat.
Proof.
  unfold count_event. rewrite filter_cons. cbn [snd].
  destruct (P ev); [rewrite decide_True by reflexivity|rewrite decide_False by discriminate];
    reflexivity.
Qed.

Lemma step_listeners (env : Env) (ev : Event) (p : Page) :
  intervals p = 1%nat →
  intervals (step env ev p) = 1%nat
  ∧ length (listeners (step env ev p)) =
    (length (listeners p) + (if is_load ev then 1 else 0) + (if is_tick ev then 1 else 0))%nat.
Proof.
  intros Hi. destruct ev; cbn [step is_load is_tick].
  - unfold onAuthStateChanged. cbn [intervals listeners].
    rewrite length_app. cbn [length]. lia.
  - cbn [intervals listeners]. lia.
  - rewrite Hi. unfold Nat.iter. cbn [nat_rect]. unfold onAuthStateChanged.
    cbn [intervals listeners].
    rewrite length_app. cbn [length]. lia.
  - cbn [with_state intervals listeners]. lia.
  - cbn [with_state intervals listeners]. lia.
  - cbn [with_state intervals listeners]. lia.
Qed.

Lemma steps_listeners (evs : list (Env * Event)) (p : Page) :
  intervals p = 1%nat →
  intervals (steps evs p) = 1%nat
  ∧ length (listeners (steps evs p)) =
    (length (listeners p) + count_event is_load evs + count_event is_tick evs)%nat.
Proof.
  unfold steps. revert p. induction evs as [|[env ev] evs IH]; intros p Hi; cbn [fold_left].
  - unfold count_event. rewrite !filter_nil. cbn. lia.
  - cbn [fst snd]. destruct (step_listeners env ev p Hi) as [Hi' Hl].
    destruct (IH _ Hi') as [Hi'' Hl']. split; [exact Hi''|].
    rewrite Hl', Hl, !count_event_cons. lia.
Qed.

(** C9, counterexample. After the page loaded, a user signed in and the
    interval fired once, three auth-state observers are registered, not
    one. *)
Lemma tick_registers_another_listener :
  listeners (steps [(env_role "doctor", WindowLoad);
                    (env_role "doctor", AuthStateChanged (Some dr_osei));
                    (env_role "doctor", IntervalTick)]
                   (script_start empty_state))
    = [AdminObserver; LoadObserver; TickObserver]
  ∧ ¬ (length (listeners (steps [(env_role "doctor", WindowLoad);
                                 (env_role "doctor", AuthStateChanged (Some dr_osei));
                                 (env_role "doctor", IntervalTick)]
                                (script_start empty_state))) ≤ 1)%nat.
Proof. split; [reflexivity|]. vm_compute. lia. Qed.

(** C9, as the code has it. Over any history of the page there is exactly
    one interval timer, started by the script and never cleared, whatever
    the auth state; the auth-state observers are never removed, and there
    is one from the script, one more for each [load] of the window and one
    more for each tick of the timer. *)
Theorem one_timer_many_listeners (evs : list (Env * Event)) (s : State) :
  intervals (steps evs (script_start s)) = 1%nat
  ∧ length (listeners (steps evs (script_start s))) =
    (1 + count_event is_load evs + count_event is_tick evs)%nat.
Proof. apply (steps_listeners evs (script_start s)). reflexivity. Qed.

(** * Further properties: the rest of the dashboard script and the auth module *)

(** ** The order of strings *)

Lemma string_compare_refl (a : string) : String.compare a a = Eq.
Proof.
  induction a as [|c a IH]; cbn [String.compare]; [reflexivity|].
  unfold Ascii.compare. rewrite N.compare_refl. exact IH.
Qed.

Lemma string_compare_lt_trans (a b c : string) :
  String.compare a b = Lt → String.compare b c = Lt → String.compare a c = Lt.
Proof.
  revert b c. induction a as [|x a IH]; intros [|y b] [|z c]; cbn [String.compare];
    try discriminate; try reflexivity.
  unfold Ascii.compare.
  destruct (N.compare_spec (N_of_ascii x) (N_of_ascii y)) as [Hxy|Hxy|Hxy];
    destruct (N.compare_spec (N_of_ascii y) (N_of_ascii z)) as [Hyz|Hyz|Hyz];
    try discriminate; intros H1 H2.
  - rewrite Hxy, Hyz, N.compare_refl. now apply (IH b c).
  - assert (Hlt : (N_of_ascii x < N_of_ascii z)%N) by (rewrite Hxy; exact Hyz).
    apply N.compare_lt_iff in Hlt. now rewrite Hlt.
  - assert (Hlt : (N_of_ascii x < N_of_ascii z)%N) by (rewrite <- Hyz; exact Hxy).
    apply N.compare_lt_iff in Hlt. now rewrite Hlt.
  - assert (Hlt : (N_of_ascii x < N_of_ascii z)%N) by (now apply (N.lt_trans _ (N_of_ascii y))).
    apply N.compare_lt_iff in Hlt. now rewrite Hlt.
Qed.

Lemma string_le_trans (a b c : string) : string_le a b → string_le b c → string_le a c.
Proof.
  unfold string_le. intros Hab Hbc.
  destruct (String.compare a b) eqn:H1; [|clear Hab|contradiction].
  - apply String.compare_eq_iff in H1. now subst b.
  - destruct (String.compare b c) eqn:H2; [|clear Hbc|contradiction].
    + apply String.compare_eq_iff in H2. subst c. rewrite H1. discriminate.
    + rewrite (string_compare_lt_trans a b c H1 H2). discriminate.
Qed.

Lemma string_cmp_pos (a b : string) : 0 < string_cmp a b ↔ String.compare a b = Gt.
Proof. unfold string_cmp. destruct (String.compare a b); split; (lia || discriminate || reflexivity). Qed.

Lemma string_gt_le (a b : string) : String.compare a b = Gt → string_le b a.
Proof.
  intros H. unfold string_le. rewrite String.compare_antisym, H. discriminate.
Qed.

Lemma sort_insert_string_sorted (x : string) (l : list string) :
  StronglySorted string_le l → StronglySorted string_le (sort_insert string_cmp x l).
Proof.
  intros Hs. induction Hs as [|y l Hs IH Hy]; cbn [sort_insert].
  - repeat constructor.
  - destruct (Z.ltb_spec 0 (string_cmp x y)) as [Hc|Hc].
    + apply string_cmp_pos in Hc. constructor; [exact IH|].
      rewrite sort_insert_perm. constructor; [now apply string_gt_le|exact Hy].
    + assert (Hxy : string_le x y).
      { unfold string_le. intros Hgt. apply string_cmp_pos in Hgt. lia. }
      constructor; [now constructor|].
      constructor; [exact Hxy|].
      eapply Forall_impl; [exact Hy|]. intros z Hz. now apply (string_le_trans x y z).
Qed.

Lemma js_sort_string_sorted (l : list string) :
  StronglySorted string_le (js_sort string_cmp l).
Proof.
  induction l as [|x l IH]; cbn [js_sort fold_right]; [constructor|].
  now apply sort_insert_string_sorted.
Qed.

Lemma StronglySorted_strict (l : list string) :
  NoDup l → StronglySorted string_le l →
  StronglySorted (fun a b => String.compare a b = Lt) l.
Proof.
  intros Hnd Hs. induction Hs as [|y l Hs IH Hy]; [constructor|].
  apply NoDup_cons in Hnd as [Hy' Hnd]. constructor; [now apply IH|].
  rewrite Forall_forall in Hy |- *. intros z Hz. specialize (Hy z Hz).
  unfold string_le in Hy. destruct (String.compare y z) eqn:Hc; try reflexivity.
  - apply String.compare_eq_iff in Hc. now subst z.
  - contradiction.
Qed.

(** ** Counting objects, continued *)

(** ** AggregationEngine: the series of [loadAnalyticsCharts] *)

(** X1. The days of the time series are in strictly ascending order, so
    each day appears once; every day shown has at least one record (no day
    is made up), and the counts add up to the number of records of the
    window. *)
Theorem days_ascending_counts_sum (t : Z) (window : list DiagnosisDoc) :
  StronglySorted (fun a b => String.compare a b = Lt) (days t window)
  ∧ length (counts t window) = length (days t window)
  ∧ Forall (fun n => (1 ≤ n)%nat) (counts t window)
  ∧ sum_list (counts t window) = length window.
Proof.
  unfold counts, days, countsByDay.
  set (o := JsObj.tally (day_of t) window).
  assert (Hp : js_sort string_cmp (JsObj.keys o) ≡ₚ JsObj.keys o) by apply js_sort_perm.
  split; [|split; [|split]].
  - apply StronglySorted_strict; [|apply js_sort_string_sorted].
    rewrite Hp. apply keys_tally_NoDup.
  - apply length_map.
  - apply Forall_map, Forall_forall. intros d Hd.
    rewrite Hp in Hd. unfold o in Hd |- *. rewrite keys_tally in Hd.
    rewrite get_tally. apply occurrences_pos. now apply first_seen_elem.
  - now apply tally_counts_along.
Qed.

Lemma elem_of_take_in {A} (x : A) (n : nat) (l : list A) : x ∈ take n l → x ∈ l.
Proof.
  revert n. induction l as [|y l IH]; intros n; [now rewrite take_nil|].
  destruct n as [|n]; cbn [take].
  - intros H. now apply not_elem_of_nil in H.
  - rewrite !elem_of_cons. intros [->|H]; [now left|right; now apply (IH n)].
Qed.

Lemma StronglySorted_take {A} (R : A -> A -> Prop) (n : nat) (l : list A) :
  StronglySorted R l → StronglySorted R (take n l).
Proof.
  intros Hs. revert n. induction Hs as [|x l Hs IH Hx]; intros [|n]; cbn [take];
    try constructor.
  - apply IH.
  - rewrite Forall_forall in Hx |- *. intros y Hy. apply Hx.
    eapply elem_of_take_in; exact Hy.
Qed.

Lemma StronglySorted_map {A B} (R : A -> A -> Prop) (R' : B -> B -> Prop) (f : A -> B)
    (l : list A) :
  (∀ a b, R a b → R' (f a) (f b)) → StronglySorted R l → StronglySorted R' (map f l).
Proof.
  intros HR Hs. induction Hs as [|x l Hs IH Hx]; cbn [map]; constructor; [exact IH|].
  apply Forall_map. eapply Forall_impl; [exact Hx|]. intros b. apply HR.
Qed.

Lemma sum_list_map_take {A} (f : A -> nat) (n : nat) (l : list A) :
  (sum_list (map f (take n l)) ≤ sum_list (map f l))%nat.
Proof.
  revert n. induction l as [|x l IH]; intros [|n]; cbn; try lia.
  specialize (IH n). cbn in IH. lia.
Qed.

(** X2. On a window whose labels name no property of [Object.prototype],
    the chart of top diagnoses shows at most 8 bars, one per distinct label
    and all of them when there are at most 8; each bar is the number of
    records of its label, at least 1, the bars do not increase from left to
    right, and together they count no more than the window (exactly the
    window when there are at most 8 labels). *)
Theorem top_diagnoses_chart (window : list DiagnosisDoc) :
  Forall (fun r => PlainObject.inherited (top r) = false) window →
  length (dxLabels window) = Nat.min 8 (length (first_seen (map top window)))
  ∧ dxValues window = map (fun l => Counted (occurrences top l window)) (dxLabels window)
  ∧ Forall (fun l => (1 ≤ occurrences top l window)%nat) (dxLabels window)
  ∧ StronglySorted ge (map (fun l => occurrences top l window) (dxLabels window))
  ∧ (sum_list (map (fun l => occurrences top l window) (dxLabels window)) ≤ length window)%nat
  ∧ ((length (first_seen (map top window)) ≤ 8)%nat →
     sum_list (map (fun l => occurrences top l window) (dxLabels window)) = length window).
Proof.
  intros Hw.
  set (c := fun l => Z.of_nat (occurrences top l window)).
  set (ks := PlainObject.key_order (first_seen (map top window))).
  set (L := js_sort (fun a b => c b - c a) ks).
  assert (HL : dxLabels window = take 8 L) by apply (dxLabels_plain window Hw).
  assert (Hp : L ≡ₚ first_seen (map top window)).
  { unfold L. rewrite js_sort_perm. apply key_order_perm. }
  assert (Hin : ∀ l, l ∈ take 8 L → l ∈ map top window).
  { intros l Hl. apply elem_of_take_in in Hl. rewrite Hp in Hl.
    now apply (proj1 (first_seen_elem _ _)) in Hl. }
  split; [|split; [|split; [|split; [|split]]]].
  - rewrite HL, length_take, (Permutation_length Hp). lia.
  - unfold dxValues. cbv zeta. rewrite HL. unfold dxCount.
    apply (plain_tally_read top window _ Hw). exact Hin.
  - rewrite HL. apply Forall_forall. intros l Hl. apply occurrences_pos. now apply Hin.
  - rewrite HL. apply (StronglySorted_map (count_order c ks)).
    + intros a b Hab. apply count_order_le in Hab. unfold c in Hab. unfold ge. lia.
    + apply StronglySorted_take, js_sort_count_order.
  - rewrite HL. etransitivity; [apply sum_list_map_take|].
    rewrite (occurrences_along top window L Hp). lia.
  - intros Hle. rewrite HL.
    rewrite take_ge by (rewrite (Permutation_length Hp); exact Hle).
    apply (occurrences_along top window L Hp).
Qed.

(** X2, witness: two ["Cold"] records and one ["Flu"] record. *)
Lemma top_diagnoses_chart_witness :
  dxValues [record (Some "Flu") "LowRisk" 0.5 None; record (Some "Cold") "LowRisk" 0.5 None;
            record (Some "Cold") "LowRisk" 0.5 None]
  = map (fun l => Counted (occurrences top l
                             [record (Some "Flu") "LowRisk" 0.5 None;
                              record (Some "Cold") "LowRisk" 0.5 None;
                              record (Some "Cold") "LowRisk" 0.5 None]))
      (dxLabels [record (Some "Flu") "LowRisk" 0.5 None; record (Some "Cold") "LowRisk" 0.5 None;
                 record (Some "Cold") "LowRisk" 0.5 None]).
Proof.
  apply (top_diagnoses_chart
           [record (Some "Flu") "LowRisk" 0.5 None; record (Some "Cold") "LowRisk" 0.5 None;
            record (Some "Cold") "LowRisk" 0.5 None]).
  repeat constructor.
Defined.

(** X3. On a window in which no record has a top-3 disease (the records
    that carry [disease_top] only), the analytics chart and the dashboard
    chart count the same labels: [dxCount] is [dist]. *)
Theorem labels_agree_without_top3 (window : list DiagnosisDoc) :
  Forall (fun r => truthy (top3_disease r) = false) window →
  dxCount window = dist window.
Proof.
  intros H. unfold dxCount, dist. apply plain_tally_ext.
  eapply Forall_impl; [exact H|]. intros r. unfold top, lab.
  destruct (top3_disease r) as [d|]; [|reflexivity].
  cbn [truthy or_str]. destruct (String.eqb d ""); [reflexivity|discriminate].
Qed.

(** X3, witness: two records of the earlier schema. *)
Lemma labels_agree_without_top3_witness :
  dxCount [legacy_record "Flu"; legacy_record "Cold"]
  = dist [legacy_record "Flu"; legacy_record "Cold"].
Proof. apply labels_agree_without_top3. repeat constructor. Defined.


(** ** [refreshStats] and [loadFeatureImportance] *)


(** X5. [loadFeatureImportance] never throws and never touches the stores.
    When the request fails it logs a console error and the chart stays as
    it was; when it succeeds the chart has one value per feature, in the
    order of the answer. *)
Theorem loadFeatureImportance_never_throws (env : Env) (s : State) :
  fst (loadFeatureImportance env s) = Return tt
  ∧ same_stores s (run env loadFeatureImportance s)
  ∧ (feature_importance env = Rejected →
       dom (run env loadFeatureImportance s) = dom s
       ∧ trace (run env loadFeatureImportance s)
         = ConsoleError "Feature importance load error" :: GET "/feature-importance"
             :: trace s)
  ∧ (∀ data, feature_importance env = Resolved data →
       ∃ labels values,
         dom (run env loadFeatureImportance s)
           = <["featureImportanceChart" := ImportanceChart labels values]> (dom s)
         ∧ length labels = length data ∧ length values = length data
         ∧ (∀ i d, data !! i = Some d →
              labels !! i = Some (feature d) ∧ values !! i = Some (importance d))
         ∧ trace (run env loadFeatureImportance s) = GET "/feature-importance" :: trace s).
Proof.
  split; [|split; [apply (loadFeatureImportance_stores env s)|split]].
  - unfold loadFeatureImportance, fetched, set_el, emit, try_catch, bind, ask, modify,
      ret, throw. cbn [fst snd]. destruct (feature_importance env); reflexivity.
  - intros Hr. unfold run, loadFeatureImportance, fetched, set_el, emit, try_catch, bind,
      ask, modify, ret, throw. cbn [fst snd]. rewrite Hr. split; reflexivity.
  - intros data Hr. exists (map feature data), (map importance data).
    unfold run, loadFeatureImportance, fetched, set_el, emit, try_catch, bind,
      ask, modify, ret, throw. cbn [fst snd]. rewrite Hr. cbn [fst snd dom with_dom trace].
    split; [reflexivity|]. rewrite !length_map. split; [reflexivity|]. split; [reflexivity|].
    split; [|reflexivity].
    intros i d Hd. rewrite !list_lookup_fmap, Hd. split; reflexivity.
Qed.

(** ** MetricsComputer: the arrays and the failures *)

Lemma length_omap_le {A B} (f : A -> option B) (l : list A) :
  (length (omap f l) ≤ length l)%nat.
Proof. induction l as [|x l IH]; cbn; [lia|]. destruct (f x); cbn; lia. Qed.

(** X6. The three arrays that [generateModelMetricsFromRecords] sends are
    aligned: they have the same length, at most the size of the window;
    every label and every prediction is 0 or 1; the prediction at an index
    is 1 exactly when the probability at that index is at least 0.5; a
    record without [features] adds nothing to them. *)
Theorem labeled_arrays_aligned (docs : list DiagnosisDoc) :
  length (y_true (labeled docs)) = length (y_prob (labeled docs))
  ∧ length (y_pred (labeled docs)) = length (y_prob (labeled docs))
  ∧ (length (y_prob (labeled docs)) ≤ length docs)%nat
  ∧ Forall (fun b => b = 0%nat ∨ b = 1%nat) (y_true (labeled docs))
  ∧ Forall (fun b => b = 0%nat ∨ b = 1%nat) (y_pred (labeled docs))
  ∧ (∀ i p, y_prob (labeled docs) !! i = Some p →
       y_pred (labeled docs) !! i = Some (if PrimFloat.leb 0.5 p then 1%nat else 0%nat))
  ∧ (∀ r, features r = None → labeled (r :: docs) = labeled docs).
Proof.
  unfold labeled. cbv zeta. cbn [y_true y_prob y_pred].
  rewrite !length_map.
  split; [reflexivity|]. split; [reflexivity|]. split; [apply length_omap_le|].
  split; [|split; [|split]].
  - apply Forall_map, Forall_forall. intros [r p] _. unfold label_of. cbn [fst].
    destruct r as [r|]; [destruct (String.eqb r "High Risk")|]; auto.
  - apply Forall_map, Forall_forall. intros [r p] _. unfold pred_of. cbn [snd].
    destruct (PrimFloat.leb 0.5 p); auto.
  - intros i p. rewrite !list_lookup_fmap.
    destruct (omap labeled_pair docs !! i) as [[r q]|]; cbn; [|discriminate].
    intros [= ->]. reflexivity.
  - intros r Hr.
    assert (Hp : labeled_pair r = None) by (unfold labeled_pair; now rewrite Hr).
    change (omap labeled_pair (r :: docs))
      with (match labeled_pair r with
            | Some y => y :: omap labeled_pair docs
            | None => omap labeled_pair docs
            end).
    rewrite Hp. reflexivity.
Qed.

(** X7. The failures of [generateModelMetricsFromRecords], which catches
    nothing.  A failed query rejects with the document untouched.  With more
    than 10 labeled pairs: a failed [/roc-data] rejects with the document
    untouched; a failed [/confusion-matrix], or an answer with fewer than two
    rows, rejects after the ROC chart was drawn, so the chart is new and the
    table is the old one; an answer with two rows draws both. *)
Theorem metrics_failures (env : Env) (s : State) (limit : nat) :
  (firestore_up env Cdiagnosis = false →
     generateModelMetricsFromRecords limit env s
     = (Throw (FirestoreFailed Cdiagnosis), with_trace (cons (Query Cdiagnosis limit)) s))
  ∧ (firestore_up env Cdiagnosis = true →
     (10 < length (y_true (labeled (take limit (db_diagnosis s)))))%nat →
     let l := labeled (take limit (db_diagnosis s)) in
     (roc_data env (y_true l) (y_prob l) = Rejected →
        fst (generateModelMetricsFromRecords limit env s) = Throw (FetchFailed "/roc-data")
        ∧ dom (run env (generateModelMetricsFromRecords limit) s) = dom s)
     ∧ (∀ roc, roc_data env (y_true l) (y_prob l) = Resolved roc →
          (confusion_matrix env (y_true l) (y_pred l) = Rejected →
             fst (generateModelMetricsFromRecords limit env s)
               = Throw (FetchFailed "/confusion-matrix")
             ∧ dom (run env (generateModelMetricsFromRecords limit) s)
               = <["rocCurve" := RocChart roc]> (dom s))
          ∧ (∀ cm, confusion_matrix env (y_true l) (y_pred l) = Resolved cm →
               (length cm < 2)%nat →
               fst (generateModelMetricsFromRecords limit env s) = Throw TypeError
               ∧ dom (run env (generateModelMetricsFromRecords limit) s)
                 = <["rocCurve" := RocChart roc]> (dom s))
          ∧ (∀ r0 r1 rest,
               confusion_matrix env (y_true l) (y_pred l) = Resolved (r0 :: r1 :: rest) →
               fst (generateModelMetricsFromRecords limit env s) = Return tt
               ∧ dom (run env (generateModelMetricsFromRecords limit) s)
                 = <["confMatrixTable" :=
                       Table [[r0 !! 0%nat; r0 !! 1%nat]; [r1 !! 0%nat; r1 !! 1%nat]]]>
                     (<["rocCurve" := RocChart roc]> (dom s))))).
Proof.
  split.
  - intros Hup.
    unfold generateModelMetricsFromRecords, query_diagnosis, emit, bind, ask, modify, throw.
    cbn [fst snd]. rewrite Hup. reflexivity.
  - intros Hup Hn l. subst l. apply Nat.ltb_lt in Hn.
    unfold run, generateModelMetricsFromRecords, query_diagnosis, postJSON, fetched,
      plotROC, renderConfMatrix, set_el, emit, bind, ask, gets, modify, ret, throw.
    cbn [fst snd]. rewrite Hup. cbn [db_diagnosis with_trace]. rewrite Hn.
    split.
    + intros ->. split; reflexivity.
    + intros roc ->. cbn [fst snd]. split; [|split].
      * intros ->. split; reflexivity.
      * intros cm -> Hcm. destruct cm as [|r0 [|r1 cm]]; cbn [length] in Hcm;
          try lia; split; reflexivity.
      * intros r0 r1 rest ->. split; reflexivity.
Qed.

(** X7, witness: 11 labeled records and a service whose matrix has two
    rows. *)
Lemma metrics_failures_witness :
  fst (generateModelMetricsFromRecords 200 (env_role "doctor") (state_with 11)) = Return tt.
Proof.
  pose proof (metrics_failures (env_role "doctor") (state_with 11) 200) as [_ H].
  specialize (H eq_refl).
  assert (Hn : (10 < length (y_true (labeled (take 200 (db_diagnosis (state_with 11))))))%nat)
    by (vm_compute; lia).
  destruct (H Hn) as [_ H2].
  destruct (H2 {| fpr := []; tpr := []; auc := None |} eq_refl) as (_ & _ & H3).
  exact (proj1 (H3 [0; 0]%nat [0; 0]%nat [] eq_refl)).
Defined.

(** ** IngestionGateway: after the prediction calls *)


(** X9. A submission whose two prediction calls resolve, on a reachable
    store, is in its own refresh: the new record is the newest of the
    collection, stamped by the server and owned by the signed-in user, and
    the total that the refresh shows counts it. *)
Theorem submission_is_in_its_refresh (env : Env) (s : State) (form : PredictForm)
    (d : DiseaseRes) (o : OutcomeRes) :
  predict_disease env (FormBody (payload_of form)) = Resolved d →
  predict_outcome env (FormBody (payload_of form)) = Resolved o →
  firestore_up env Cdiagnosis = true →
  ∃ r,
    db_diagnosis (run env (predictForm_submit form) s) = r :: db_diagnosis s
    ∧ createdAt r = Some (serverTimestamp env)
    ∧ createdBy r = user_uid <$> currentUser s
    ∧ features r = Some (payload_of form)
    ∧ dom (run env (predictForm_submit form) s) !! "totalRecords"
      = Some (Count (Nat.min 200 (S (length (db_diagnosis s))))).
Proof.
  intros Hd Ho Hup. eexists.
  unfold run, predictForm_submit, refreshStats, loadFeatureImportance, postJSON, fetched,
    add_diagnosis, query_diagnosis, set_el, emit, try_catch, bind, ask, gets, modify, ret,
    throw.
  cbn [fst snd]. rewrite Hd, Ho, Hup. cbn [fst snd].
  destruct (log_metrics env); cbn [fst snd]; rewrite ?Hup; cbn [fst snd];
    destruct (feature_importance env); cbn [fst snd dom db_diagnosis with_dom with_trace
      with_diagnosis];
    (split; [reflexivity|]); (split; [reflexivity|]); (split; [reflexivity|]);
    (split; [reflexivity|]);
    rewrite ?lookup_insert_ne by discriminate;
    rewrite lookup_insert_eq, length_take; reflexivity.
Qed.

(** X9, witness: the form of age 45 with fever, on the empty store. *)
Lemma submission_is_in_its_refresh_witness :
  ∃ r,
    db_diagnosis (run (env_ok flu_response high_risk_response)
                    (predictForm_submit form_45_fever) empty_state)
      = r :: db_diagnosis empty_state
    ∧ createdAt r = Some (serverTimestamp (env_ok flu_response high_risk_response))
    ∧ createdBy r = user_uid <$> currentUser empty_state
    ∧ features r = Some (payload_of form_45_fever)
    ∧ dom (run (env_ok flu_response high_risk_response)
             (predictForm_submit form_45_fever) empty_state) !! "totalRecords"
      = Some (Count (Nat.min 200 (S (length (db_diagnosis empty_state))))).
Proof.
  apply (submission_is_in_its_refresh (env_ok flu_response high_risk_response) empty_state
           form_45_fever flu_response high_risk_response); reflexivity.
Defined.

(** X10. When the store rejects the write, the handler rejects after the
    alert with the predictions was shown: nothing is stored, the metrics log
    is not sent, no refresh runs and the document stays as it was. *)
Theorem submission_write_failure (env : Env) (s : State) (form : PredictForm)
    (d : DiseaseRes) (o : OutcomeRes) :
  predict_disease env (FormBody (payload_of form)) = Resolved d →
  predict_outcome env (FormBody (payload_of form)) = Resolved o →
  firestore_up env Cdiagnosis = false →
  predictForm_submit form env s =
    (Throw (FirestoreFailed Cdiagnosis),
     with_trace (fun t => Add Cdiagnosis :: Alert :: POST "/predict-outcome"
                            :: POST "/predict-disease" :: t) s).
Proof.
  intros Hd Ho Hup.
  unfold predictForm_submit, postJSON, fetched, add_diagnosis, emit, bind, ask, gets,
    modify, ret, throw.
  cbn [fst snd]. rewrite Hd, Ho, Hup. reflexivity.
Qed.

(** X10, witness: the service answers, the store is down. *)
Lemma submission_write_failure_witness :
  predictForm_submit form_45_fever
    (with_firestore (fun _ => false) (env_ok flu_response high_risk_response)) empty_state
  = (Throw (FirestoreFailed Cdiagnosis),
     with_trace (fun t => Add Cdiagnosis :: Alert :: POST "/predict-outcome"
                            :: POST "/predict-disease" :: t) empty_state).
Proof.
  apply (submission_write_failure _ _ _ flu_response high_risk_response); reflexivity.
Defined.

(** ** The symptom checker *)

(** X11. The symptom checker never throws and never touches the stores.
    With no symptom selected it only alerts: no request is made.  A rejected
    request is logged and alerted and the result box stays as it was.  An
    answer without an error shows its top-3 list, or an empty list when the
    answer has none. *)
Theorem runSymptomCheck_outcomes (env : Env) (s : State) (form : PredictForm) :
  (∀ selected, fst (runSymptomCheck selected form env s) = Return tt)
  ∧ (∀ selected, same_stores s (run env (runSymptomCheck selected form) s))
  ∧ run env (runSymptomCheck [] form) s = with_trace (cons Alert) s
  ∧ (∀ x xs,
       predict_disease env (SymptomBody (symptom_payload (x :: xs) form)) = Rejected →
       run env (runSymptomCheck (x :: xs) form) s
       = with_trace (fun t => Alert :: ConsoleError "Symptom check failed"
                                :: POST "/predict-disease" :: t) s)
  ∧ (∀ x xs d,
       predict_disease env (SymptomBody (symptom_payload (x :: xs) form)) = Resolved d →
       truthy (error d) = false →
       run env (runSymptomCheck (x :: xs) form) s
       = with_dom <["symptomResult" := Suggestions (default [] (top3 d))]>
           (with_trace (cons (POST "/predict-disease")) s)).
Proof.
  split; [|split; [|split; [|split]]].
  - intros [|x xs]; [reflexivity|].
    unfold runSymptomCheck, fetched, set_el, emit, try_catch, bind, ask, modify, ret, throw.
    cbn [fst snd]. destruct (predict_disease env _) as [d|]; [|reflexivity].
    destruct (truthy (error d)); reflexivity.
  - intros selected. unfold run.
    assert (H : keeps same_stores (runSymptomCheck selected form)).
    { unfold runSymptomCheck. unfold_js. frame; repeat split. }
    apply H.
  - reflexivity.
  - intros x xs Hr.
    unfold run, runSymptomCheck, fetched, set_el, emit, try_catch, bind, ask, modify, ret,
      throw. cbn [fst snd]. rewrite Hr. reflexivity.
  - intros x xs d Hr He.
    unfold run, runSymptomCheck, fetched, set_el, emit, try_catch, bind, ask, modify, ret,
      throw. cbn [fst snd]. rewrite Hr, He. reflexivity.
Qed.

Lemma or_num_truthy (x d : float) :
  PrimFloat.is_zero d = false → PrimFloat.is_nan d = false →
  PrimFloat.is_zero (or_num x d) = false ∧ PrimFloat.is_nan (or_num x d) = false.
Proof.
  intros Hz Hn. unfold or_num.
  destruct (PrimFloat.is_zero x) eqn:Ez; cbn [orb]; [now split|].
  destruct (PrimFloat.is_nan x) eqn:En; now split.
Qed.

Lemma includes_spec (selected : list string) (v : string) :
  includes selected v = true ↔ v ∈ selected.
Proof.
  unfold includes. rewrite existsb_exists. split.
  - intros (y & Hy & He). apply String.eqb_eq in He. subst y. now apply list_elem_of_In.
  - intros H. exists v. split; [now apply list_elem_of_In|apply String.eqb_refl].
Qed.

(** X12. The payload of the symptom checker always carries a usable age:
    it is never 0 and never NaN, a blank, zero or unreadable age being
    replaced by 30 (the submit handler sends 0 for a blank age).  A symptom
    is ["Yes"] exactly when its box is among the checked ones. *)
Theorem symptom_payload_age (selected : list string) (form : PredictForm) :
  PrimFloat.is_zero (s_Age (symptom_payload selected form)) = false
  ∧ PrimFloat.is_nan (s_Age (symptom_payload selected form)) = false
  ∧ (el_age form = Blank → s_Age (symptom_payload selected form) = 30%float
                           ∧ Age (payload_of form) = 0%float)
  ∧ (s_Fever (symptom_payload selected form) = "Yes" ↔ "Fever" ∈ selected)
  ∧ (s_Cough (symptom_payload selected form) = "Yes" ↔ "Cough" ∈ selected)
  ∧ (s_Fatigue (symptom_payload selected form) = "Yes" ↔ "Fatigue" ∈ selected)
  ∧ (s_DifficultyBreathing (symptom_payload selected form) = "Yes"
     ↔ "Difficulty Breathing" ∈ selected).
Proof.
  cbn [symptom_payload s_Age s_Fever s_Cough s_Fatigue s_DifficultyBreathing].
  destruct (or_num_truthy (Number_or (el_age form) 0) 30 eq_refl eq_refl) as [Hz Hn].
  split; [exact Hz|]. split; [exact Hn|]. split.
  { intros H. cbn [payload_of Age]. rewrite H. split; reflexivity. }
  assert (Hyn : ∀ v, yes_no (includes selected v) = "Yes" ↔ v ∈ selected).
  { intros v. rewrite <- includes_spec. unfold yes_no.
    destruct (includes selected v); split; (reflexivity || discriminate). }
  repeat split; apply Hyn.
Qed.

(** ** RoleGate: the edges of the admin check and the auth module *)

(** X13. The edges of [showAnalyticsIfAdmin].  With nobody signed in it
    does nothing, not even the lookup.  For a user who does not resolve to
    admin it returns normally, a failed lookup included.  For an admin whose
    window query fails it rejects after it displayed the analytics card: the
    card is shown and the charts are the old ones. *)
Theorem showAnalyticsIfAdmin_edges (env : Env) (s : State) :
  (currentUser s = None → showAnalyticsIfAdmin env s = (Return tt, s))
  ∧ (∀ u, currentUser s = Some u → resolved_role env (user_uid u) ≠ Some "admin" →
       fst (showAnalyticsIfAdmin env s) = Return tt)
  ∧ (∀ u, currentUser s = Some u → resolved_role env (user_uid u) = Some "admin" →
       firestore_up env Cdiagnosis = false →
       fst (showAnalyticsIfAdmin env s) = Throw (FirestoreFailed Cdiagnosis)
       ∧ dom (run env showAnalyticsIfAdmin s) = <["analyticsCard" := Display true]> (dom s))
  ∧ (∀ u, currentUser s = Some u → lookups (trace (run env showAnalyticsIfAdmin s))
                                    = S (lookups (trace s))).
Proof.
  split; [|split; [|split]].
  - intros Hu. unfold showAnalyticsIfAdmin, bind, gets, ret. rewrite Hu. reflexivity.
  - intros u Hu Hrole.
    unfold showAnalyticsIfAdmin, resolved_role, get_user_doc, loadAnalyticsCharts,
      query_diagnosis, set_el, emit, try_catch, bind, ask, gets, modify, ret, throw in *.
    cbn [fst snd]. rewrite Hu. cbn [fst snd].
    destruct (firestore_up env Cusers); cbn [fst snd is_admin_role]; [|reflexivity].
    destruct (is_admin_role _) eqn:Hr; [|reflexivity].
    apply is_admin_role_spec in Hr. contradiction.
  - intros u Hu Hrole Hup.
    assert (Hup' : firestore_up env Cusers = true).
    { unfold resolved_role in Hrole. destruct (firestore_up env Cusers); [reflexivity|discriminate]. }
    unfold run, showAnalyticsIfAdmin, resolved_role, get_user_doc, loadAnalyticsCharts,
      query_diagnosis, set_el, emit, try_catch, bind, ask, gets, modify, ret, throw in *.
    cbn [fst snd]. rewrite Hu. cbn [fst snd]. rewrite Hup' in *. cbn [fst snd].
    rewrite Hrole. cbn [is_admin_role String.eqb Ascii.eqb Bool.eqb fst snd].
    rewrite Hup. split; reflexivity.
  - intros u Hu. rewrite showAnalyticsIfAdmin_run, Hu. cbv zeta.
    destruct (is_admin_role _); [rewrite loadAnalyticsCharts_run|];
      destruct (firestore_up env Cusers), (firestore_up env Cdiagnosis);
      cbv zeta; cbn [trace with_dom with_trace]; unfold lookups;
      rewrite ?filter_cons; cbn [is_lookup];
      repeat (first [rewrite decide_True by reflexivity
                    |rewrite decide_False by discriminate]);
      reflexivity.
Qed.

(** X14. [getUserRole] of the auth module gives the role that the admin
    check resolves whenever the lookup resolves, [null] for a user without a
    document; unlike the admin check it does not catch a failed lookup: it
    rejects. *)
Theorem getUserRole_agrees (env : Env) (s : State) (id : string) :
  (firestore_up env Cusers = true →
     getUserRole id env s
     = (Return (resolved_role env id), with_trace (cons (DocGet Cusers id)) s))
  ∧ (firestore_up env Cusers = true → users env !! id = None →
     fst (getUserRole id env s) = Return None)
  ∧ (firestore_up env Cusers = false →
     fst (getUserRole id env s) = Throw (FirestoreFailed Cusers)
     ∧ resolved_role env id = None).
Proof.
  unfold getUserRole, resolved_role, get_user_doc, emit, bind, ask, modify, ret, throw.
  cbn [fst snd].
  split; [|split]; intros Hup; rewrite Hup; cbn [fst snd].
  - destruct (users env !! id) as [d|]; reflexivity.
  - intros ->. reflexivity.
  - split; reflexivity.
Qed.

(** X15. A registration that goes through is read back by [getUserRole]:
    the new user has the role given to [register], and the role ["doctor"]
    when none is given, so a default registration never resolves to admin;
    the documents of the other users are as before. *)
Theorem register_then_getUserRole (env : Env) (s : State) (w : AuthWorld)
    (id email displayName : string) (role : option string) :
  firestore_up env Cusers = true →
  let r := register (Resolved id) true true email displayName role w in
  (∃ u, fst r = Return u ∧ user_uid u = id ∧ user_displayName u = Some displayName
        ∧ u ∈ accounts (snd r))
  ∧ fst (getUserRole id (with_users (users_docs (snd r)) env) s)
    = Return (Some (default "doctor" role))
  ∧ (role = None →
     is_admin_role (resolved_role (with_users (users_docs (snd r)) env) id) = false)
  ∧ (∀ id', id' ≠ id → users_docs (snd r) !! id' = users_docs w !! id').
Proof.
  intros Hup r. subst r. cbn [register fst snd accounts users_docs].
  split; [eexists; repeat split; left|].
  unfold getUserRole, resolved_role, get_user_doc, emit, bind, ask, modify, ret, throw,
    with_users.
  cbn [fst snd users firestore_up]. rewrite Hup. cbn [fst snd users].
  rewrite !lookup_insert_eq. cbn.
  split; [reflexivity|]. split; [intros ->; reflexivity|].
  intros id' Hne. now rewrite lookup_insert_ne.
Qed.

(** X15, witness: a registration without a role. *)
Lemma register_then_getUserRole_witness :
  fst (getUserRole "u2"
         (with_users (users_docs (snd (register (Resolved "u2") true true
                                         "a@clinic.example" "Dr A" None
                                         {| accounts := []; users_docs := ∅ |})))
            (env_role "admin")) empty_state)
  = Return (Some "doctor").
Proof.
  apply (register_then_getUserRole (env_role "admin") empty_state
           {| accounts := []; users_docs := ∅ |} "u2" "a@clinic.example" "Dr A" None).
  reflexivity.
Defined.

(** X16. A registration that fails after the account was created leaves an
    account without a [users] document: [register] rejects, the account
    exists, the [users] collection is as before, and the admin check of that
    user resolves no role.  A registration whose account creation fails
    changes nothing. *)
Theorem register_failures (env : Env) (w : AuthWorld) (id email displayName : string)
    (role : option string) (profile_ok set_ok : bool) :
  (register Rejected profile_ok set_ok email displayName role w
   = (Throw (FetchFailed "createUserWithEmailAndPassword"), w))
  ∧ (profile_ok && set_ok = false →
     let r := register (Resolved id) profile_ok set_ok email displayName role w in
     (∃ e, fst r = Throw e)
     ∧ (∃ u, accounts (snd r) = u :: accounts w ∧ user_uid u = id)
     ∧ users_docs (snd r) = users_docs w
     ∧ (users_docs w !! id = None →
        resolved_role (with_users (users_docs (snd r)) env) id = None)).
Proof.
  split; [reflexivity|].
  intros Hok r. subst r. unfold register.
  destruct profile_ok, set_ok; try discriminate; cbn [fst snd accounts users_docs];
    (split; [eexists; reflexivity|]); (split; [eexists; split; reflexivity|]);
    (split; [reflexivity|]);
    intros Hnone; unfold resolved_role, with_users; cbn [users firestore_up];
    rewrite Hnone; now destruct (firestore_up env Cusers).
Qed.

(** X16, witness: the write of the [users] document fails. *)
Lemma register_failures_witness :
  users_docs (snd (register (Resolved "u2") true false "a@clinic.example" "Dr A" None
                     {| accounts := []; users_docs := ∅ |})) = ∅.
Proof.
  pose proof (register_failures (env_role "admin") {| accounts := []; users_docs := ∅ |}
                "u2" "a@clinic.example" "Dr A" None true false) as [_ H].
  exact (proj1 (proj2 (proj2 (H eq_refl)))).
Defined.

(** ** [trim] *)

Lemma trimStart_spaces (s : string) :
  Forall (fun a => ws1 a = true) (list_ascii_of_string s) → trimStart s = "".
Proof.
  induction s as [|a s IH]; cbn [list_ascii_of_string trimStart]; [reflexivity|].
  intros H. apply Forall_cons in H as [Ha Hs]. rewrite Ha. now apply IH.
Qed.

Lemma trim_spaces (s : string) :
  Forall (fun a => ws1 a = true) (list_ascii_of_string s) → trim s = "".
Proof. intros H. unfold trim. now rewrite trimStart_spaces. Qed.

Lemma trimEnd_idle (s : string) : trimStart s = "" → trimEnd s = "".
Proof. destruct s as [|a s]; cbn [trimEnd]; [reflexivity|]. now intros ->. Qed.

(** ** The second chat: [sendMessage], [appendMessage], [saveChat] *)

(** X17. A message that the assistant answers: [sendMessage] returns
    normally, the chat box gains the line of the user and then the line of
    the assistant, and only the answer is spoken.  Nothing is stored, whoever
    is signed in: both calls of [saveChat] reject on the unbound [auth]
    before any request to [chat_history], and nobody awaits them. *)
Theorem sendMessage_answered (env : Env) (s : State) (msg answer : string) :
  msg ≠ "" →
  chat env msg = Resolved answer →
  fst (sendMessage msg env s) = Return tt
  ∧ chat_lines (dom (run env (sendMessage msg) s))
    = chat_lines (dom s) ++ [("You", msg); ("AI", answer)]
  ∧ db_chat_history (run env (sendMessage msg) s) = db_chat_history s
  ∧ trace (run env (sendMessage msg) s) = Speak answer :: POST "/chat" :: trace s.
Proof.
  intros Hm Hc.
  unfold run, sendMessage. destruct (String.eqb_spec msg "") as [|_]; [congruence|].
  unfold appendMessage, speak, detached, saveChat, auth_currentUser, fetched, emit, bind,
    gets, modify, ask, ret, throw.
  cbn [fst snd String.eqb Ascii.eqb Bool.eqb with_dom with_trace with_chat_history
       currentUser dom db_chat_history trace].
  rewrite Hc.
  cbn [fst snd with_dom with_trace with_chat_history currentUser dom db_chat_history trace].
  rewrite !chat_lines_append, <- app_assoc.
  repeat split.
Qed.

(** X17, witness: [dr_osei] says hello. *)
Lemma sendMessage_answered_witness :
  fst (sendMessage "hello" (env_role "doctor") (with_currentUser (Some dr_osei) empty_state))
  = Return tt.
Proof.
  apply (sendMessage_answered (env_role "doctor")
           (with_currentUser (Some dr_osei) empty_state) "hello" "ok");
    (reflexivity || discriminate).
Defined.

(** X18. When the request to [/chat] fails, [sendMessage] rejects after
    the line of the user was shown: the chat box has the question and no
    answer, nothing is spoken and nothing is stored. *)
Theorem sendMessage_chat_failure (env : Env) (s : State) (msg : string) :
  msg ≠ "" →
  chat env msg = Rejected →
  fst (sendMessage msg env s) = Throw (FetchFailed "/chat")
  ∧ chat_lines (dom (run env (sendMessage msg) s)) = chat_lines (dom s) ++ [("You", msg)]
  ∧ (∀ text, Speak text ∈ trace (run env (sendMessage msg) s) → Speak text ∈ trace s)
  ∧ db_chat_history (run env (sendMessage msg) s) = db_chat_history s.
Proof.
  intros Hm Hc.
  unfold run, sendMessage. destruct (String.eqb_spec msg "") as [|_]; [congruence|].
  unfold appendMessage, speak, detached, saveChat, auth_currentUser, fetched, emit, bind,
    gets, modify, ask, ret, throw.
  cbn [fst snd String.eqb Ascii.eqb Bool.eqb with_dom with_trace with_chat_history
       currentUser dom db_chat_history trace].
  rewrite Hc.
  cbn [fst snd with_dom with_trace with_chat_history currentUser dom db_chat_history trace].
  rewrite chat_lines_append.
  split; [reflexivity|]. split; [reflexivity|]. split; [|reflexivity].
  intros text. rewrite !elem_of_cons. intros [H|H]; (discriminate || exact H).
Qed.

(** X18, witness: the assistant is down. *)
Lemma sendMessage_chat_failure_witness :
  fst (sendMessage "hello" (with_chat (fun _ => Rejected) (env_role "doctor")) empty_state)
  = Throw (FetchFailed "/chat").
Proof.
  apply (sendMessage_chat_failure (with_chat (fun _ => Rejected) (env_role "doctor"))
           empty_state "hello"); (reflexivity || discriminate).
Defined.


(** X20. An input of white space only is not sent: [sendMessage], from the
    input box or from the voice transcript, returns at once and leaves the
    page as it was. *)
Theorem blank_input_is_not_sent (env : Env) (s : State) (value : string) :
  Forall (fun a => ws1 a = true) (list_ascii_of_string value) →
  sendMessage_input value env s = (Return tt, s)
  ∧ onresult value env s = (Return tt, s).
Proof.
  intros H. unfold onresult, sendMessage_input, sendMessage.
  rewrite (trim_spaces value H). split; reflexivity.
Qed.

(** X20, witness: a space, a tab and a line feed. *)
Lemma blank_input_is_not_sent_witness :
  sendMessage_input (String " " (String (ascii_of_nat 9) (String (ascii_of_nat 10) "")))
    (env_role "doctor") empty_state
  = (Return tt, empty_state).
Proof.
  apply (blank_input_is_not_sent (env_role "doctor") empty_state).
  repeat constructor.
Defined.

(** ** The first chat: [sendChatMessage] and [openChatModal] *)

(** X21. A question that is answered before anything else happens: the
    input is emptied; when [/api/chat] answers, the bubble [Thinking...]
    gives way to the answer; when the request fails, [Thinking...] stays, is
    followed by [Failed to get answer.] and the error is logged. *)
Theorem sendChatMessage_outcomes (res : string -> Fetch ChatRes) (ui : ChatUi) :
  trim (chatInput ui) ≠ "" →
  let msg := trim (chatInput ui) in
  let ui' := sendChatMessage res ui in
  chatInput ui' = ""
  ∧ (∀ r, res msg = Resolved r →
       chatWindow ui' = chatWindow ui
                        ++ [("user", msg); ("ai", or_str (reply r) "[object Object]")]
       ∧ chat_errors ui' = chat_errors ui)
  ∧ (res msg = Rejected →
       chatWindow ui' = chatWindow ui
                        ++ [("user", msg); ("ai", "Thinking...");
                            ("ai", "Failed to get answer.")]
       ∧ chat_errors ui' = S (chat_errors ui)).
Proof.
  intros Hm. cbv zeta. unfold sendChatMessage, sendChatMessage_begin.
  destruct (String.eqb_spec (trim (chatInput ui)) "") as [|_]; [congruence|].
  unfold sendChatMessage_end.
  destruct (res (trim (chatInput ui))) as [r|];
    cbn [appendChat remove_last with_chatWindow with_chatInput chat_console_error
         chatWindow chatInput chat_errors].
  - split; [reflexivity|]. split; [|discriminate].
    intros r' [= <-]. split; [|reflexivity].
    rewrite removelast_last, <- app_assoc. reflexivity.
  - split; [reflexivity|]. split; [discriminate|].
    intros _. split; [|reflexivity].
    rewrite <- !app_assoc. reflexivity.
Qed.

(** X21, witness: the question [fever?], answered with [rest]. *)
Lemma sendChatMessage_outcomes_witness :
  chatInput
    (sendChatMessage (fun _ => Resolved {| reply := Some "rest" |})
       {| chatModal := Some ""; chatWindow := []; chatInput := "fever?";
          sendChat_listener := true; chat_errors := 0 |})
  = "".
Proof.
  apply (sendChatMessage_outcomes (fun _ => Resolved {| reply := Some "rest" |})
           {| chatModal := Some ""; chatWindow := []; chatInput := "fever?";
              sendChat_listener := true; chat_errors := 0 |}).
  discriminate.
Defined.

(** X22. A second question sent before the first is answered: the first
    answer takes the place of the second [Thinking...] and is removed in
    turn by the second answer, so the first question keeps its
    [Thinking...] and its answer is never shown. *)
Theorem overlapping_questions_lose_an_answer (ui : ChatUi) (q2 : string) (r1 r2 : ChatRes) :
  trim (chatInput ui) ≠ "" →
  trim q2 ≠ "" →
  let asked1 := snd (sendChatMessage_begin ui) in
  let asked2 := snd (sendChatMessage_begin (with_chatInput q2 asked1)) in
  chatWindow (sendChatMessage_end (Resolved r2) (sendChatMessage_end (Resolved r1) asked2))
  = chatWindow ui
    ++ [("user", trim (chatInput ui)); ("ai", "Thinking...");
        ("user", trim q2); ("ai", or_str (reply r2) "[object Object]")].
Proof.
  intros H1 H2. cbv zeta. unfold sendChatMessage_begin.
  destruct (String.eqb_spec (trim (chatInput ui)) "") as [|_]; [congruence|].
  cbn [snd with_chatInput chatInput].
  destruct (String.eqb_spec (trim q2) "") as [|_]; [congruence|].
  cbn [snd sendChatMessage_end appendChat remove_last with_chatWindow with_chatInput
       chatWindow chatInput].
  rewrite !removelast_last, <- !app_assoc. reflexivity.
Qed.

(** X22, witness: [fever?] and then [cough?]. *)
Lemma overlapping_questions_lose_an_answer_witness :
  chatWindow
    (sendChatMessage_end (Resolved {| reply := Some "drink" |})
       (sendChatMessage_end (Resolved {| reply := Some "rest" |})
          (snd (sendChatMessage_begin
                  (with_chatInput "cough?"
                     (snd (sendChatMessage_begin
                             {| chatModal := Some ""; chatWindow := [];
                                chatInput := "fever?"; sendChat_listener := true;
                                chat_errors := 0 |})))))))
  = [("user", "fever?"); ("ai", "Thinking..."); ("user", "cough?"); ("ai", "drink")].
Proof.
  apply (overlapping_questions_lose_an_answer
           {| chatModal := Some ""; chatWindow := []; chatInput := "fever?";
              sendChat_listener := true; chat_errors := 0 |}
           "cough?" {| reply := Some "rest" |} {| reply := Some "drink" |});
    discriminate.
Defined.

Lemma openChatModal_once (ui : ChatUi) :
  chatModal (openChatModal ui) ≠ None
  ∧ chatWindow (openChatModal ui) = chatWindow ui
  ∧ chatInput (openChatModal ui) = chatInput ui
  ∧ chat_errors (openChatModal ui) = chat_errors ui
  ∧ sendChat_listener (openChatModal ui) = match chatModal ui with
                                           | Some _ => sendChat_listener ui
                                           | None => true
                                           end.
Proof.
  unfold openChatModal.
  destruct (chatModal ui);
    cbn [showChat chatModal chatWindow chatInput chat_errors sendChat_listener];
    (split; [discriminate|repeat split]).
Qed.

Lemma openChatModal_again (n : nat) (ui : ChatUi) :
  let ui' := Nat.iter (S n) openChatModal ui in
  chatModal ui' ≠ None
  ∧ chatWindow ui' = chatWindow ui
  ∧ chatInput ui' = chatInput ui
  ∧ chat_errors ui' = chat_errors ui
  ∧ sendChat_listener ui' = match chatModal ui with
                            | Some _ => sendChat_listener ui
                            | None => true
                            end.
Proof.
  cbv zeta. induction n as [|n IH].
  - apply openChatModal_once.
  - change (Nat.iter (S (S n)) openChatModal ui)
      with (openChatModal (Nat.iter (S n) openChatModal ui)).
    destruct IH as (Hm & Hw & Hi & He & Hl).
    destruct (openChatModal_once (Nat.iter (S n) openChatModal ui))
      as (Hm' & Hw' & Hi' & He' & Hl').
    destruct (chatModal (Nat.iter (S n) openChatModal ui)) eqn:Hc; [|congruence].
    split; [exact Hm'|]. repeat split; congruence.
Qed.

(** X23. However often the chat was opened on a page without the modal,
    the conversation is kept and one click on [sendChat] sends the typed
    question once. *)
Theorem reopened_chat_sends_once (n : nat) (res : string -> Fetch ChatRes) (ui : ChatUi)
    (q : string) (r : ChatRes) :
  chatModal ui = None →
  trim q ≠ "" →
  res (trim q) = Resolved r →
  chatWindow (click_sendChat res (with_chatInput q (Nat.iter (S n) openChatModal ui)))
  = chatWindow ui ++ [("user", trim q); ("ai", or_str (reply r) "[object Object]")].
Proof.
  intros Hnone Hq Hres.
  destruct (openChatModal_again n ui) as (_ & Hw & _ & _ & Hl). rewrite Hnone in Hl.
  unfold click_sendChat. cbn [with_chatInput sendChat_listener]. rewrite Hl.
  unfold sendChatMessage, sendChatMessage_begin. cbn [with_chatInput chatInput].
  destruct (String.eqb_spec (trim q) "") as [|_]; [congruence|].
  rewrite Hres.
  cbn [sendChatMessage_end appendChat remove_last with_chatWindow with_chatInput chatWindow].
  rewrite removelast_last, <- app_assoc, Hw. reflexivity.
Qed.

(** X23, witness: the chat opened three times. *)
Lemma reopened_chat_sends_once_witness :
  chatWindow
    (click_sendChat (fun _ => Resolved {| reply := Some "rest" |})
       (with_chatInput "fever?"
          (Nat.iter 3 openChatModal
             {| chatModal := None; chatWindow := []; chatInput := "";
                sendChat_listener := false; chat_errors := 0 |})))
  = [("user", "fever?"); ("ai", "rest")].
Proof.
  apply (reopened_chat_sends_once 2 (fun _ => Resolved {| reply := Some "rest" |})
           {| chatModal := None; chatWindow := []; chatInput := "";
              sendChat_listener := false; chat_errors := 0 |}
           "fever?" {| reply := Some "rest" |});
    (reflexivity || discriminate).
Defined.

(** ** Patient profiles *)

Lemma cons_neq {A} (x : A) (l : list A) : x :: l ≠ l.
Proof.
  intros H. apply (f_equal length) in H. cbn [length] in H. lia.
Qed.

(** X24. A name of white space only is refused: the listener alerts and
    returns, nothing is sent to the [patients] collection and the form
    stays as it is. *)
Theorem savePatient_requires_a_name (user : option User) (ts : Timestamp)
    (add : Fetch string) (err : string) (p : PatientPage) :
  Forall (fun a => ws1 a = true) (list_ascii_of_string (pf_name (patient_form p))) →
  savePatient user ts add err p
  = {| patient_form := patient_form p; db_patients := db_patients p;
       patient_effects := PatientAlert "Patient name required" :: patient_effects p |}.
Proof.
  intros H. unfold savePatient. rewrite (trim_spaces _ H). reflexivity.
Qed.

(** X24, witness: a name of two spaces. *)
Lemma savePatient_requires_a_name_witness :
  savePatient None {| toDate := 0 |} (Resolved "p1") ""
    {| patient_form := {| pf_name := "  "; pf_age := Blank; pf_gender := "F";
                          pf_phone := ""; pf_bp := "" |};
       db_patients := []; patient_effects := [] |}
  = {| patient_form := {| pf_name := "  "; pf_age := Blank; pf_gender := "F";
                          pf_phone := ""; pf_bp := "" |};
       db_patients := [];
       patient_effects := [PatientAlert "Patient name required"] |}.
Proof.
  apply (savePatient_requires_a_name None {| toDate := 0 |} (Resolved "p1") ""
           {| patient_form := {| pf_name := "  "; pf_age := Blank; pf_gender := "F";
                                 pf_phone := ""; pf_bp := "" |};
              db_patients := []; patient_effects := [] |}).
  repeat constructor.
Defined.

(** X25. What [savePatient] can do to the collection and the form: at
    most one profile is added, in front; no profile is ever stored under an
    empty name; and the form is cleared only when a profile was added, in
    which case the gender and the blood pressure stay. *)
Theorem savePatient_invariants (user : option User) (ts : Timestamp) (add : Fetch string)
    (err : string) (p : PatientPage) :
  let p' := savePatient user ts add err p in
  (db_patients p' = db_patients p
   ∨ ∃ id doc, db_patients p' = (id, doc) :: db_patients p
               ∧ add = Resolved id
               ∧ name doc = trim (pf_name (patient_form p)) ∧ name doc ≠ ""
               ∧ patient_createdBy doc = user_uid <$> user)
  ∧ (db_patients p' = db_patients p → patient_form p' = patient_form p)
  ∧ pf_gender (patient_form p') = pf_gender (patient_form p)
  ∧ pf_bp (patient_form p') = pf_bp (patient_form p).
Proof.
  cbv zeta. unfold savePatient.
  destruct (String.eqb_spec (trim (pf_name (patient_form p))) "") as [He|Hne].
  - cbn [db_patients patient_form]. repeat split; auto.
  - destruct add as [id|]; cbn [db_patients patient_form pf_gender pf_bp].
    + split.
      { right. eexists _, _. split; [reflexivity|]. split; [reflexivity|].
        cbn [name patient_createdBy]. split; [reflexivity|]. split; [exact Hne|reflexivity]. }
      split; [|split; reflexivity].
      intros H. now apply cons_neq in H.
    + repeat split; auto.
Qed.

(** ** The observers of the auth state *)

#[export] Instance same_lookups_preorder : PreOrder same_lookups.
Proof.
  split.
  - intros s. reflexivity.
  - intros s1 s2 s3 H1 H2. unfold same_lookups in *. congruence.
Qed.

Lemma lookups_cons (e : Effect) (t : list Effect) :
  lookups (e :: t) = ((if is_lookup e then 1 else 0) + lookups t)%nat.
Proof.
  unfold lookups. rewrite filter_cons.
  destruct (decide (is_lookup e = true)) as [->|H]; [reflexivity|].
  destruct (is_lookup e); [congruence|reflexivity].
Qed.

Lemma same_lookups_emit e s : is_lookup e = false → same_lookups s (with_trace (cons e) s).
Proof.
  intros He. unfold same_lookups. cbn [with_trace trace]. rewrite lookups_cons, He.
  reflexivity.
Qed.

Ltac same_lookups_leaf :=
  lazymatch goal with
  | |- same_lookups _ (with_trace (cons _) _) => apply same_lookups_emit; reflexivity
  | |- same_lookups _ _ => reflexivity
  end.

Lemma loadAnalyticsCharts_lookups : keeps same_lookups loadAnalyticsCharts.
Proof. unfold_js. frame; same_lookups_leaf. Qed.

Lemma onAuth_load_lookups user : keeps same_lookups (onAuth_load user).
Proof. unfold onAuth_load. unfold_js. frame; same_lookups_leaf. Qed.

Lemma onAuth_load_stores user : keeps same_stores (onAuth_load user).
Proof. unfold onAuth_load. unfold_js. frame; repeat split. Qed.

Lemma keeps_lookups {A} (m : M A) (env : Env) (s : State) :
  keeps same_lookups m → lookups (trace (run env m s)) = lookups (trace s).
Proof. intros H. apply H. Qed.

Lemma showAnalyticsIfAdmin_lookups (env : Env) (s : State) (u : User) :
  currentUser s = Some u →
  lookups (trace (run env showAnalyticsIfAdmin s)) = S (lookups (trace s)).
Proof.
  intros Hu. rewrite showAnalyticsIfAdmin_run, Hu. cbv zeta.
  assert (lookups (trace (if firestore_up env Cusers
                          then with_trace (cons (DocGet Cusers (user_uid u))) s
                          else with_trace (cons (ConsoleWarn "Failed to read user role"))
                                 (with_trace (cons (DocGet Cusers (user_uid u))) s)))
          = S (lookups (trace s))) as Hs2.
  { destruct (firestore_up env Cusers); cbn [with_trace trace]; rewrite !lookups_cons;
      reflexivity. }
  destruct (is_admin_role (resolved_role env (user_uid u))).
  - rewrite (keeps_lookups _ _ _ loadAnalyticsCharts_lookups). cbn [with_dom trace]. exact Hs2.
  - cbn [with_dom trace]. exact Hs2.
Qed.

Lemma observe_lookups (env : Env) (l : Listener) (u : User) (s : State) :
  currentUser s = Some u →
  lookups (trace (run env (observe l (Some u)) s))
  = (lookups (trace s) + (if is_load_observer l then 0 else 1))%nat
  ∧ currentUser (run env (observe l (Some u)) s) = Some u.
Proof.
  intros Hu. destruct l; cbn [observe is_load_observer].
  - split.
    + rewrite (keeps_lookups _ _ _ (onAuth_load_lookups (Some u))). lia.
    + destruct (onAuth_load_stores (Some u) env s) as (_ & _ & H). unfold run. congruence.
  - split.
    + change (run env (detached showAnalyticsIfAdmin) s) with (run env showAnalyticsIfAdmin s).
      rewrite (showAnalyticsIfAdmin_lookups env s u Hu). lia.
    + destruct (showAnalyticsIfAdmin_stores env s) as (_ & _ & H).
      unfold run, detached. cbn [snd]. congruence.
  - split.
    + change (run env (detached showAnalyticsIfAdmin) s) with (run env showAnalyticsIfAdmin s).
      rewrite (showAnalyticsIfAdmin_lookups env s u Hu). lia.
    + destruct (showAnalyticsIfAdmin_stores env s) as (_ & _ & H).
      unfold run, detached. cbn [snd]. congruence.
Qed.

Lemma role_readers_cons (l : Listener) (ls : list Listener) :
  role_readers (l :: ls) = ((if is_load_observer l then 0 else 1) + role_readers ls)%nat.
Proof.
  unfold role_readers. rewrite filter_cons.
  destruct (decide (is_load_observer l = false)) as [->|H]; [reflexivity|].
  destruct (is_load_observer l); [reflexivity|congruence].
Qed.

Lemma role_readers_app (ls ls' : list Listener) :
  role_readers (ls ++ ls') = (role_readers ls + role_readers ls')%nat.
Proof. unfold role_readers. now rewrite filter_app, length_app. Qed.

Lemma observers_lookups (env : Env) (u : User) (ls : list Listener) (s : State) :
  currentUser s = Some u →
  lookups (trace (fold_left (fun s l => run env (observe l (Some u)) s) ls s))
  = (lookups (trace s) + role_readers ls)%nat.
Proof.
  revert s. induction ls as [|l ls IH]; intros s Hu; cbn [fold_left].
  - unfold role_readers. rewrite filter_nil. cbn [length]. lia.
  - destruct (observe_lookups env l u s Hu) as [Hl Hu'].
    rewrite (IH _ Hu'), Hl, role_readers_cons. lia.
Qed.

Lemma step_role_readers (env : Env) (ev : Event) (p : Page) :
  intervals p = 1%nat →
  intervals (step env ev p) = 1%nat
  ∧ role_readers (listeners (step env ev p))
    = (role_readers (listeners p) + (if is_tick ev then 1 else 0))%nat.
Proof.
  intros Hi. destruct ev; cbn [step is_tick].
  - unfold onAuthStateChanged. cbn [intervals listeners].
    rewrite role_readers_app. split; [exact Hi|]. reflexivity.
  - cbn [intervals listeners]. split; [exact Hi|lia].
  - rewrite Hi. unfold Nat.iter. cbn [nat_rect]. unfold onAuthStateChanged.
    cbn [intervals listeners].
    rewrite role_readers_app. split; [exact Hi|]. reflexivity.
  - cbn [with_state intervals listeners]. split; [exact Hi|lia].
  - cbn [with_state intervals listeners]. split; [exact Hi|lia].
  - cbn [with_state intervals listeners]. split; [exact Hi|lia].
Qed.

Lemma steps_role_readers (evs : list (Env * Event)) (p : Page) :
  intervals p = 1%nat →
  intervals (steps evs p) = 1%nat
  ∧ role_readers (listeners (steps evs p))
    = (role_readers (listeners p) + count_event is_tick evs)%nat.
Proof.
  unfold steps. revert p. induction evs as [|[env ev] evs IH]; intros p Hi; cbn [fold_left].
  - unfold count_event. rewrite filter_nil. cbn [length]. split; [exact Hi|lia].
  - cbn [fst snd]. destruct (step_role_readers env ev p Hi) as [Hi' Hl].
    destruct (IH _ Hi') as [Hi'' Hl']. split; [exact Hi''|].
    rewrite Hl', Hl, count_event_cons. cbn [snd]. lia.
Qed.

(** X26. After any history of the page, a user who signs in has the
    [users] document read once by the admin check of the script and once
    more for every interval tick so far; the observer of the [load]
    listener reads none. *)
Theorem sign_in_reads_role_once_per_tick (evs : list (Env * Event)) (s : State) (env : Env)
    (u : User) :
  lookups (trace (state (step env (AuthStateChanged (Some u)) (steps evs (script_start s)))))
  = (lookups (trace (state (steps evs (script_start s)))) + 1 + count_event is_tick evs)%nat.
Proof.
  cbn [step state].
  rewrite (observers_lookups env u); [|reflexivity].
  cbn [with_currentUser trace].
  destruct (steps_role_readers evs (script_start s)) as [_ ->]; [reflexivity|].
  cbn [script_start listeners]. rewrite role_readers_cons. cbn [is_load_observer].
  unfold role_readers at 1. rewrite filter_nil. cbn [length]. lia.
Qed.

Lemma observers_signed_out (env : Env) (ls : list Listener) (s : State) :
  let s' := fold_left (fun s l => run env (observe l None) s) ls s in
  trace s' = trace s
  ∧ db_diagnosis s' = db_diagnosis s
  ∧ db_chat_history s' = db_chat_history s
  ∧ currentUser s' = currentUser s
  ∧ (LoadObserver ∈ ls ∨ dom s !! "location" = Some (Text "login.html") →
     dom s' !! "location" = Some (Text "login.html")).
Proof.
  cbv zeta. revert s. induction ls as [|l ls IH]; intros s; cbn [fold_left].
  - repeat split. intros [H|H]; [|exact H]. now apply elem_of_nil in H.
  - destruct (IH (run env (observe l None) s)) as (Ht & Hd & Hc & Hu & Hloc).
    destruct l; cbn [observe] in *.
    + unfold run, onAuth_load, set_el, modify in *. cbn [snd with_dom] in *.
      cbn [trace db_diagnosis db_chat_history currentUser dom] in *.
      repeat split; try assumption.
      intros _. apply Hloc. right. apply lookup_insert_eq.
    + unfold run, ret in *. cbn [snd] in *. repeat split; try assumption.
      intros [H|H]; apply Hloc; [left|right; exact H].
      apply elem_of_cons in H as [H|H]; [discriminate|exact H].
    + unfold run, ret in *. cbn [snd] in *. repeat split; try assumption.
      intros [H|H]; apply Hloc; [left|right; exact H].
      apply elem_of_cons in H as [H|H]; [discriminate|exact H].
Qed.

(** X27. When the user signs out, no observer makes a request or touches
    the stores, however many are registered, and a page whose [load]
    listener ran is sent to [login.html]. *)
Theorem sign_out_is_quiet (env : Env) (p : Page) :
  let p' := step env (AuthStateChanged None) p in
  trace (state p') = trace (state p)
  ∧ db_diagnosis (state p') = db_diagnosis (state p)
  ∧ db_chat_history (state p') = db_chat_history (state p)
  ∧ currentUser (state p') = None
  ∧ listeners p' = listeners p
  ∧ (LoadObserver ∈ listeners p → dom (state p') !! "location" = Some (Text "login.html")).
Proof.
  cbv zeta. cbn [step state listeners].
  destruct (observers_signed_out env (listeners p) (with_currentUser None (state p)))
    as (Ht & Hd & Hc & Hu & Hloc).
  repeat split; try assumption.
  intros H. apply Hloc. now left.
Qed.
